(** * seagrass.prepare: feature extraction and training pairs

    A shallow embedding of [src/seagrass/prepare.py] together with the part of
    numpy's array semantics that the three functions of the module rely on:
    integer indexing along the first axis, [ravel], [np.vstack], [.T],
    boolean-mask indexing, element-wise [!=] and [abs], and [reshape].

    An n-dimensional array is a shape and a row-major (C order) buffer.
    Python exceptions are the [Raise] results of a small error monad.

    The cells of the band stack are of an arbitrary type; the cells of the
    ground truth, which the module compares with the integer sentinel and
    passes to [abs], are integers of a signed integer type of numpy, whose
    [abs] wraps around. [scipy.ndimage.gaussian_filter] is a parameter of
    the development. *)

From Stdlib Require Import ZArith QArith Lia.
From stdpp Require Import base list strings gmap.

Open Scope nat_scope.

(** ** Exceptions *)

Inductive exn : Set := IndexError | ValueError | TypeError | OverflowError.

Inductive res (A : Type) : Type :=
  | Ok (a : A)
  | Raise (e : exn).

Arguments Ok {A} a.
Arguments Raise {A} e.

#[export] Instance res_ret : MRet res := fun _ a => Ok a.

#[export] Instance res_bind : MBind res := fun _ _ k m =>
  match m with
  | Ok a => k a
  | Raise e => Raise e
  end.

(** A list comprehension [[f x for x in l]]: elements are evaluated from left
    to right and the first exception propagates. *)
Fixpoint list_comp {A B : Type} (f : A -> res B) (l : list A) : res (list B) :=
  match l with
  | [] => Ok []
  | x :: l' => y ← f x; ys ← list_comp f l'; Ok (y :: ys)
  end.

(** ** Arrays *)

Record ndarray (A : Type) : Type := mk_ndarray {
  shape : list nat;
  buf : list A
}.

Arguments mk_ndarray {A} shape buf.
Arguments shape {A} _.
Arguments buf {A} _.

(** Number of elements of an array of a given shape. *)
Definition size (sh : list nat) : nat := foldr Nat.mul 1 sh.

(** The buffer holds exactly the elements the shape announces. *)
Definition wf {A : Type} (a : ndarray A) : Prop :=
  length (buf a) = size (shape a).

(** [chunks n k l]: the first [n] consecutive blocks of [k] elements of [l],
    that is the sub-arrays along the first axis of an array of shape
    [n :: rest] with [size rest = k]. *)
Fixpoint chunks {A : Type} (n k : nat) (l : list A) : list (list A) :=
  match n with
  | 0 => []
  | S n' => take k l :: chunks n' k (drop k l)
  end.

(** [transpose m rows]: the [m] columns of a list of rows of length [m]. *)
Fixpoint transpose {A : Type} (m : nat) (rows : list (list A)) : list (list A) :=
  match rows with
  | [] => replicate m []
  | r :: rows' => zip_with cons r (transpose m rows')
  end.

(** [select m l]: the elements of [l] at the positions where [m] is true. *)
Fixpoint select {A : Type} (m : list bool) (l : list A) : list A :=
  match m, l with
  | b :: m', x :: l' => if b then x :: select m' l' else select m' l'
  | _, _ => []
  end.

Definition count_true (m : list bool) : nat := length (filter (fun b => b = true) m).

(** The exception of an integer index that is out of bounds. *)
Definition index_error (i : Z) : exn :=
  if ((2 ^ 63 <=? i) && (i <? 2 ^ 64))%Z then OverflowError else IndexError.

Section Numpy.
Context {A : Type}.

(** [len(a)] *)
Definition len (a : ndarray A) : res nat :=
  match shape a with
  | [] => Raise TypeError
  | n :: _ => Ok n
  end.

(** [a[i]] for a Python integer [i] on a 64-bit platform: negative indices
    count from the end, and an index outside [-n, n) raises an exception,
    OverflowError when the index lies in [2^63, 2^64) (it is read as an
    unsigned 64-bit number that does not convert to an index) and IndexError
    otherwise. An axis is shorter than 2^63, so an index of [2^63, 2^64) is
    never inside [-n, n). *)
Definition getitem (a : ndarray A) (i : Z) : res (ndarray A) :=
  match shape a with
  | [] => Raise (index_error i)
  | n :: rest =>
      let i' := if (i <? 0)%Z then (i + Z.of_nat n)%Z else i in
      if (0 <=? i')%Z && (i' <? Z.of_nat n)%Z
      then match chunks n (size rest) (buf a) !! Z.to_nat i' with
           | Some c => Ok (mk_ndarray rest c)
           | None => Raise IndexError
           end
      else Raise (index_error i)
  end.

(** [a.ravel()] *)
Definition ravel (a : ndarray A) : ndarray A :=
  mk_ndarray [size (shape a)] (buf a).

(** [np.atleast_2d(a)] *)
Definition atleast_2d (a : ndarray A) : ndarray A :=
  match shape a with
  | [] => mk_ndarray [1; 1] (buf a)
  | [n] => mk_ndarray [1; n] (buf a)
  | _ => a
  end.

(** [np.concatenate(l, axis=0)] *)
Definition concatenate (l : list (ndarray A)) : res (ndarray A) :=
  match l with
  | [] => Raise ValueError
  | a :: l' =>
      match shape a with
      | [] => Raise ValueError
      | _ :: tl =>
          if forallb (fun b => match shape b with
                               | [] => false
                               | _ :: tl' => bool_decide (tl' = tl)
                               end) l'
          then Ok (mk_ndarray (sum_list (map (fun b => hd 0 (shape b)) l) :: tl)
                              (concat (map buf l)))
          else Raise ValueError
      end
  end.

(** [np.vstack(l)] *)
Definition vstack (l : list (ndarray A)) : res (ndarray A) :=
  concatenate (map atleast_2d l).

(** Buffer of [a.T] (all axes reversed) for an array of shape [sh]. *)
Fixpoint T_buf (sh : list nat) (l : list A) : list A :=
  match sh with
  | [] => l
  | n :: rest =>
      concat (transpose (size rest) (map (T_buf rest) (chunks n (size rest) l)))
  end.

(** [a.T] *)
Definition T (a : ndarray A) : ndarray A :=
  mk_ndarray (rev (shape a)) (T_buf (shape a) (buf a)).

(** [a[m]] for a boolean array [m]: the shape of [m] must equal the leading
    dimensions of [a], else IndexError; the selected sub-arrays are kept in
    row-major order of [m]. *)
Definition getitem_mask (a : ndarray A) (m : ndarray bool) : res (ndarray A) :=
  let d := length (shape m) in
  if bool_decide (take d (shape a) = shape m)
  then let rest := drop d (shape a) in
       Ok (mk_ndarray (count_true (buf m) :: rest)
                      (concat (select (buf m)
                                 (chunks (size (shape m)) (size rest) (buf a)))))
  else Raise IndexError.

(** [a.copy()] *)
Definition copy (a : ndarray A) : ndarray A := a.

(** [a.reshape(newshape)]: at most one dimension may be [-1], and it is then
    inferred from the number of elements; the element count must fit. *)
Definition reshape (a : ndarray A) (newshape : list Z) : res (ndarray A) :=
  let n := Z.of_nat (size (shape a)) in
  let known := foldr Z.mul 1%Z (filter (fun d => d ≠ (-1)%Z) newshape) in
  if existsb (fun d => (d <? -1)%Z) newshape then Raise ValueError
  else match length (filter (fun d => d = (-1)%Z) newshape) with
       | 0 => if (known =? n)%Z
              then Ok (mk_ndarray (map Z.to_nat newshape) (buf a))
              else Raise ValueError
       | 1 => if (known =? 0)%Z then Raise ValueError
              else if (n mod known =? 0)%Z
              then Ok (mk_ndarray
                         (map (fun d => Z.to_nat (if (d =? -1)%Z then n / known else d)%Z)
                              newshape)
                         (buf a))
              else Raise ValueError
       | _ => Raise ValueError
       end.

(** Reading a 2-d array: [a[i, j]], the rows and the columns. *)
Definition item2 (a : ndarray A) (i j : nat) : option A :=
  match shape a with
  | [n; k] => if (i <? n) && (j <? k) then buf a !! (i * k + j) else None
  | _ => None
  end.

Definition item3 (a : ndarray A) (b r c : nat) : option A :=
  match shape a with
  | [nb; nr; nc] =>
      if (b <? nb) && (r <? nr) && (c <? nc)
      then buf a !! ((b * nr + r) * nc + c)
      else None
  | _ => None
  end.

Definition rows (a : ndarray A) : list (list A) :=
  match shape a with
  | n :: rest => chunks n (size rest) (buf a)
  | [] => []
  end.

Definition columns (a : ndarray A) : list (list A) :=
  match shape a with
  | [n; k] => transpose k (rows a)
  | _ => []
  end.

(** The sub-array at position [i] along the first axis. *)
Definition subarray (data : ndarray A) (i : nat) : ndarray A :=
  let rest := tail (shape data) in
  mk_ndarray rest (take (size rest) (drop (i * size rest) (buf data))).
End Numpy.

(** [np.arange(n)] as a list. *)
Definition arange (n : nat) : list Z := map Z.of_nat (seq 0 n).

(** [a != v] with a scalar [v], on an array of integers. *)
Definition ne (a : ndarray Z) (v : Z) : ndarray bool :=
  mk_ndarray (shape a) (map (fun x => negb (x =? v)%Z) (buf a)).

(** The signed integer types of numpy and the values they hold. *)
Inductive int_dtype : Set := int8 | int16 | int32 | int64.

Definition dtype_bits (dt : int_dtype) : Z :=
  match dt with
  | int8 => 8
  | int16 => 16
  | int32 => 32
  | int64 => 64
  end.

Definition dtype_min (dt : int_dtype) : Z := - 2 ^ (dtype_bits dt - 1).

Definition dtype_max (dt : int_dtype) : Z := 2 ^ (dtype_bits dt - 1) - 1.

(** Two's complement wrap-around into the range of the type. *)
Definition wrap (dt : int_dtype) (z : Z) : Z :=
  (z + 2 ^ (dtype_bits dt - 1)) mod 2 ^ dtype_bits dt - 2 ^ (dtype_bits dt - 1).

(** [abs] on one cell of an integer array: the magnitude, wrapped into the
    type, so that the most negative value is left as it is. *)
Definition np_abs (dt : int_dtype) (x : Z) : Z := wrap dt (Z.abs x).

(** [abs(a)], on an array of integers of type [dt]. *)
Definition abs (dt : int_dtype) (a : ndarray Z) : ndarray Z :=
  mk_ndarray (shape a) (map (np_abs dt) (buf a)).

(** ** The module *)

Section Prepare.
Context {A : Type}.

(** [scipy.ndimage.gaussian_filter(input, sigma)], an external collaborator. *)
Variable gaussian_filter : ndarray A -> Q -> ndarray A.

(** The integer type of the cells of the ground truth raster. *)
Variable dtype : int_dtype.

Definition return_features (data : ndarray A) (bands : option (list Z))
    (blurring : bool) : res (ndarray A) :=
  bands ← match bands with
           | None => n ← len data; Ok (arange n)
           | Some bs => Ok bs
           end;
  bands_1D ← list_comp (fun band => p ← getitem data band; Ok (ravel p)) bands;
  all_bands ←
    (if blurring
     then blurred_1D ← list_comp (fun band => p ← getitem data band;
                                     Ok (ravel (gaussian_filter p 2.0%Q))) bands;
          Ok (bands_1D ++ blurred_1D)
     else Ok bands_1D);
  v ← vstack all_bands;
  Ok (T v).

Definition create_training_data (s2_data : ndarray A) (ground_truth_data : ndarray Z)
    (no_data_value : Z) (s2_bands : option (list Z))
    : res (ndarray A * ndarray Z) :=
  s2_bands ← match s2_bands with
              | None => n ← len s2_data; Ok (arange n)
              | Some bs => Ok bs
              end;
  let mask := ne ground_truth_data no_data_value in
  F ← return_features s2_data (Some s2_bands) false;
  X ← getitem_mask F (ravel mask);
  g ← getitem_mask (abs dtype ground_truth_data) mask;
  y ← reshape (copy g) [-1; 1]%Z;
  Ok (X, y).

Definition create_prediction_features (s2_data : ndarray A)
    (s2_bands : option (list Z)) : res (ndarray A) :=
  s2_bands ← match s2_bands with
              | None => n ← len s2_data; Ok (arange n)
              | Some bs => Ok bs
              end;
  prediction_features ← return_features s2_data (Some s2_bands) false;
  Ok prediction_features.
End Prepare.

(** ** Vocabulary of the statements *)

(** The position a valid (possibly negative) index denotes. *)
Definition norm_index (n : nat) (i : Z) : nat :=
  Z.to_nat (if (i <? 0)%Z then (i + Z.of_nat n)%Z else i).

(** [i] is accepted as an index on an axis of length [n]. *)
Definition valid_index (n : nat) (i : Z) : Prop :=
  (- Z.of_nat n <= i < Z.of_nat n)%Z.

#[export] Instance valid_index_dec n i : Decision (valid_index n i) :=
  decide (- Z.of_nat n <= i < Z.of_nat n)%Z.

(** A selection [return_features] can process on a stack of [n] bands: the
    default on a stack that has a band, or a non-empty list of valid indices. *)
Definition valid_selection (n : nat) (bands : option (list Z)) : Prop :=
  match bands with
  | None => 0 < n
  | Some bs => bs <> [] /\ Forall (valid_index n) bs
  end.

(** The bands a selection denotes. *)
Definition resolve (n : nat) (bands : option (list Z)) : list Z :=
  match bands with
  | None => arange n
  | Some bs => bs
  end.

(** The filter returns an array of the shape of its input. *)
Definition shape_preserving {A : Type} (filter : ndarray A -> Q -> ndarray A) : Prop :=
  forall p sigma, wf p -> shape (filter p sigma) = shape p /\ wf (filter p sigma).

Section Columns.
Context {A : Type}.
Variable gaussian_filter : ndarray A -> Q -> ndarray A.

(** The feature columns of a selection: the flattened selected bands,
    followed when blurring by the flattened filtered bands. *)
Definition feature_columns (data : ndarray A) (n : nat) (bands : list Z)
    (blurring : bool) : list (list A) :=
  map (fun b => buf (subarray data (norm_index n b))) bands
  ++ (if blurring
      then map (fun b => buf (gaussian_filter (subarray data (norm_index n b)) 2.0%Q)) bands
      else []).
End Columns.

(** The cells of an array of type [dt] lie in the range of the type. *)
Definition in_dtype (dt : int_dtype) (x : Z) : Prop :=
  (dtype_min dt <= x <= dtype_max dt)%Z.

Definition has_dtype (dt : int_dtype) (a : ndarray Z) : Prop :=
  Forall (in_dtype dt) (buf a).

(** The flattened validity mask of a ground truth. *)
Definition valid_mask (ground_truth_data : ndarray Z) (no_data_value : Z) : list bool :=
  buf (ravel (ne ground_truth_data no_data_value)).

(** The number of cells of a ground truth that differ from the sentinel. *)
Definition count_valid (ground_truth_data : ndarray Z) (no_data_value : Z) : nat :=
  length (filter (fun v => v <> no_data_value) (buf ground_truth_data)).

(** ** Concrete rasters *)

(** Two bands of 2x2 pixels: band 0 is [[1,2],[3,4]], band 1 is [[5,6],[7,8]]. *)
Definition ex_stack : ndarray Z :=
  mk_ndarray [2; 2; 2] [1; 2; 3; 4; 5; 6; 7; 8]%Z.

(** A ground truth with two valid pixels for the sentinel [-9999]. *)
Definition ex_truth : ndarray Z :=
  mk_ndarray [2; 2] [-1; -9999; -9999; 3]%Z.

(** One band of 2x3 pixels and a ground truth of 3x2 pixels. *)
Definition wide_stack : ndarray Z :=
  mk_ndarray [1; 2; 3] [10; 20; 30; 40; 50; 60]%Z.

Definition tall_truth : ndarray Z :=
  mk_ndarray [3; 2] [1; 0; -2; 0; 3; -5]%Z.

(** A stack without bands over 2x2 pixels. *)
Definition no_band_stack : ndarray Z := mk_ndarray [0; 2; 2] [].

(** One band of one pixel, and a 64-bit ground truth whose only cell is the
    most negative value of its type. *)
Definition one_pixel_stack : ndarray Z := mk_ndarray [1; 1; 1] [7]%Z.

Definition minimum_truth : ndarray Z := mk_ndarray [1; 1] [- 2 ^ 63]%Z.

(** A stand-in for the smoothing filter on integer rasters: it keeps the shape
    and halves every cell. *)
Definition halving_filter (a : ndarray Z) (sigma : Q) : ndarray Z :=
  mk_ndarray (shape a) (map (fun x => x / 2)%Z (buf a)).

(** ** setup.py: requirement files

    A Python string is the list of its code points. The file system and the
    path functions of the standard library are parameters: [readlines] stands
    for opening a path for reading and calling [file.readlines()], and gives
    either what [open] raises or the lines of the file. *)

Abbreviation str := (list N).

(** The code points of a literal. *)
Definition codes (s : string) : str :=
  map (fun a => N.of_nat (Ascii.nat_of_ascii a)) (String.list_ascii_of_string s).

(** [c.isspace()], the characters [str.strip()] removes: U+0009..U+000D,
    U+001C..U+0020, U+0085, U+00A0, U+1680, U+2000..U+200A, U+2028, U+2029,
    U+202F, U+205F and U+3000. *)
Definition isspace (c : N) : bool :=
  ((9 <=? c) && (c <=? 13) || (28 <=? c) && (c <=? 32)
   || (c =? 133) || (c =? 160) || (c =? 5760)
   || (8192 <=? c) && (c <=? 8202)
   || (c =? 8232) || (c =? 8233) || (c =? 8239) || (c =? 8287) || (c =? 12288))%N.

(** [s.lstrip()], [s.rstrip()] and [s.strip()] *)
Fixpoint lstrip (s : str) : str :=
  match s with
  | [] => []
  | c :: s' => if isspace c then lstrip s' else s
  end.

Fixpoint rstrip (s : str) : str :=
  match s with
  | [] => []
  | c :: s' =>
      match rstrip s' with
      | [] => if isspace c then [] else [c]
      | t => c :: t
      end
  end.

Definition strip (s : str) : str := rstrip (lstrip s).

(** [s.startswith(prefix)] *)
Fixpoint startswith (s prefix : str) : bool :=
  match prefix, s with
  | [], _ => true
  | _ :: _, [] => false
  | p :: prefix', c :: s' => (c =? p)%N && startswith s' prefix'
  end.

(** [s.find(sub)]: the lowest index at which [sub] occurs in [s]. [sub in s]
    holds when there is one, and [s.index(sub)] is then that index. *)
Fixpoint find (s sub : str) : option nat :=
  if startswith s sub then Some 0
  else match s with
       | [] => None
       | _ :: s' => S <$> find s' sub
       end.

(** [re.search("\-(.*?)\.", s)]: the leftmost '-' that is followed, before any
    newline, by a '.'; group 1 is what lies between that '-' and the first
    such '.'. *)
Fixpoint group_until_dot (s : str) : option str :=
  match s with
  | [] => None
  | c :: s' =>
      if (c =? 46)%N then Some []
      else if (c =? 10)%N then None
      else (c ::.) <$> group_until_dot s'
  end.

Fixpoint search_dash_group (s : str) : option str :=
  match s with
  | [] => None
  | c :: s' =>
      if (c =? 45)%N
      then match group_until_dot s' with
           | Some g => Some g
           | None => search_dash_group s'
           end
      else search_dash_group s'
  end.

(** What interrupts [_find_optional_installs]: an exception of [open], or the
    AttributeError of [.group] on a failed search. *)
Inductive setup_exn (E : Type) : Type :=
  | OpenError (e : E)
  | AttributeError.

Arguments OpenError {E} e.
Arguments AttributeError {E}.

Section Setup.
Context {E : Type}.

(** [os.path.join], [os.path.basename] and [glob.glob] *)
Variable path_join : str -> str -> str.
Variable basename : str -> str.
Variable glob : str -> list str.

(** [open(path, 'r')] followed by [file.readlines()] *)
Variable readlines : str -> E + list str.

Definition _load_requirements (path_dir file_name comment_char : str) : E + list str :=
  match readlines (path_join path_dir file_name) with
  | inl e => inl e
  | inr file_lines =>
      let lines := map strip file_lines in
      inr (foldl (fun reqs ln =>
                    let ln := match find ln comment_char with
                              | Some i => strip (take i ln)
                              | None => ln
                              end in
                    if startswith ln (codes "http") then reqs
                    else match ln with
                         | [] => reqs
                         | _ :: _ => reqs ++ [ln]
                         end)
             [] lines)
  end.

Fixpoint _find_optional_installs_loop (requirements_dir : str)
    (requirements_list : list str) (optional_dict : gmap str (list str))
    : setup_exn E + gmap str (list str) :=
  match requirements_list with
  | [] => inr optional_dict
  | requirements_filepath :: rest =>
      let filename := basename requirements_filepath in
      match search_dash_group filename with
      | None => inl AttributeError
      | Some optional_name =>
          match _load_requirements requirements_dir filename (codes "#") with
          | inl e => inl (OpenError e)
          | inr reqs =>
              _find_optional_installs_loop requirements_dir rest
                (<[optional_name := reqs]> optional_dict)
          end
      end
  end.

Definition _find_optional_installs (requirements_dir : str)
    : setup_exn E + gmap str (list str) :=
  let requirements_search := path_join requirements_dir (codes "requirements-*.txt") in
  let requirements_list := glob requirements_search in
  _find_optional_installs_loop requirements_dir requirements_list ∅.
End Setup.

(** A requirement as [_load_requirements] returns them: not empty, without
    white space at either end, not starting with "http" and free of the
    comment marker. *)
Definition clean (comment_char r : str) : Prop :=
  r <> []
  /\ (forall c, head r = Some c -> isspace c = false)
  /\ (forall c, last r = Some c -> isspace c = false)
  /\ startswith r (codes "http") = false
  /\ find r comment_char = None.

(** White space only. *)
Definition blank (ws : str) : Prop := Forall (fun c => isspace c = true) ws.

(** What one stripped line contributes to the list of requirements. *)
Definition requirement_of (comment_char ln : str) : option str :=
  let ln := match find ln comment_char with
            | Some i => strip (take i ln)
            | None => ln
            end in
  if startswith ln (codes "http") then None
  else match ln with
       | [] => None
       | _ :: _ => Some ln
       end.

(** The line [line] is the text [r] between white space. *)
Definition padded (r line : str) : Prop :=
  exists ws1 ws2, blank ws1 /\ blank ws2 /\ line = ws1 ++ r ++ ws2.

(** The line [line] is the text [r] between white space, possibly followed by
    a comment that the character [h] starts. *)
Definition commented (h : N) (r line : str) : Prop :=
  exists ws1 ws2, blank ws1 /\ blank ws2
    /\ (line = ws1 ++ r ++ ws2 \/ exists t, line = ws1 ++ r ++ ws2 ++ h :: t).

(** A file system for the examples: the lines of the listed paths, and the
    exception [tt] for every other path. *)
Definition read_from (files : list (str * list str)) (p : str) : unit + list str :=
  match list_find (fun kv => kv.1 = p) files with
  | Some (_, (_, file_lines)) => inr file_lines
  | None => inl tt
  end.

(** Joining with a slash, and the part after the last slash. *)
Definition slash_join (a b : str) : str := a ++ codes "/" ++ b.

Fixpoint after_last_slash (p : str) : str :=
  match p with
  | [] => []
  | c :: p' => if bool_decide (47%N ∈ p') then after_last_slash p' else
               if (c =? 47)%N then p' else p
  end.

(** The path [p] names a readable file requirements-[n].rest of the
    directory, where [n] has neither '.' nor newline. *)
Definition optional_file {E : Type} (path_join : str -> str -> str)
    (basename : str -> str) (readlines : str -> E + list str)
    (requirements_dir p n : str) : Prop :=
  (exists post, basename p = codes "requirements-" ++ n ++ 46%N :: post)
  /\ (46%N ∉ n) /\ (10%N ∉ n)
  /\ exists file_lines,
       readlines (path_join requirements_dir (basename p)) = inr file_lines.

(** ** Blocks, transposition and selection on lists *)

Section Lists.
Context {A : Type}.
Implicit Types (l : list A) (ls : list (list A)).

Lemma length_chunks n k l : length (chunks n k l) = n.
Proof. revert l. induction n as [|n IH]; intros l; simpl; [done|]. by rewrite IH. Qed.

Lemma chunks_concat k ls :
  Forall (fun l => length l = k) ls -> chunks (length ls) k (concat ls) = ls.
Proof.
  induction 1 as [|l ls Hl _ IH]; simpl; [done|].
  rewrite take_app_length', drop_app_length' by done. by rewrite IH.
Qed.

Lemma Forall_length_chunks n k l :
  n * k <= length l -> Forall (fun c => length c = k) (chunks n k l).
Proof.
  revert l. induction n as [|n IH]; intros l Hl; simpl; constructor.
  - rewrite length_take. lia.
  - apply IH. rewrite length_drop. lia.
Qed.

Lemma concat_chunks n k l : length l = n * k -> concat (chunks n k l) = l.
Proof.
  revert l. induction n as [|n IH]; intros l Hl; simpl.
  - by destruct l.
  - rewrite IH; [apply take_drop|]. rewrite length_drop. lia.
Qed.

Lemma lookup_chunks n k l i :
  i < n -> chunks n k l !! i = Some (take k (drop (i * k) l)).
Proof.
  revert l i. induction n as [|n IH]; intros l i Hi; [lia|].
  destruct i as [|i]; simpl; [done|].
  rewrite IH by lia. by rewrite drop_drop.
Qed.

Lemma transpose_0 ls : transpose 0 ls = [].
Proof.
  induction ls as [|r ls IH]; simpl; [done|]. rewrite IH. by destruct r.
Qed.

Lemma length_transpose m ls :
  Forall (fun r => length r = m) ls -> length (transpose m ls) = m.
Proof.
  induction 1 as [|r ls Hr _ IH]; simpl.
  - apply length_replicate.
  - rewrite length_zip_with. lia.
Qed.

Lemma Forall_length_transpose m ls :
  Forall (fun c => length c = length ls) (transpose m ls).
Proof.
  induction ls as [|r ls IH]; simpl.
  - apply Forall_replicate. done.
  - revert IH. generalize (transpose m ls). clear.
    intros cs Hcs. revert r. induction Hcs as [|c cs Hc _ IH]; intros [|x r]; simpl;
      try constructor; simpl; auto.
Qed.

Lemma transpose_zip_cons n r ls :
  length r = length ls ->
  transpose (S n) (zip_with cons r ls) = r :: transpose n ls.
Proof.
  revert ls. induction r as [|x r IH]; intros [|c ls] Hlen; simplify_eq/=; [done|].
  by rewrite IH.
Qed.

Lemma transpose_involutive m ls :
  Forall (fun r => length r = m) ls ->
  transpose (length ls) (transpose m ls) = ls.
Proof.
  induction 1 as [|r ls Hr Hls IH]; simpl.
  - apply transpose_0.
  - rewrite transpose_zip_cons, IH; [done|].
    by rewrite length_transpose.
Qed.

Lemma lookup_transpose m ls i j :
  Forall (fun r => length r = m) ls ->
  transpose m ls !! i ≫= (.!! j) = ls !! j ≫= (.!! i).
Proof.
  intros Hls. revert j. induction Hls as [|r ls Hr Hls IH]; intros j; simpl.
  - destruct (replicate m [] !! i) as [c|] eqn:Hc; simpl; [|done].
    apply lookup_replicate in Hc as [-> _]. done.
  - rewrite lookup_zip_with.
    destruct (r !! i) as [x|] eqn:Hx; simpl.
    + destruct (transpose m ls !! i) as [c|] eqn:Hc; simpl.
      * destruct j as [|j]; simpl; [done|]. by rewrite <- IH.
      * apply lookup_ge_None in Hc. apply lookup_lt_Some in Hx.
        rewrite length_transpose in Hc by done. lia.
    + destruct j as [|j]; simpl; [done|].
      destruct (ls !! j) as [r'|] eqn:Hr'; simpl; [|done].
      symmetry. apply lookup_ge_None.
      apply lookup_ge_None in Hx.
      rewrite (Forall_lookup_1 _ _ _ _ Hls Hr'). lia.
Qed.

Lemma lookup_concat_uniform k ls i j :
  Forall (fun l => length l = k) ls -> j < k ->
  concat ls !! (i * k + j) = ls !! i ≫= (.!! j).
Proof.
  intros Hls Hj. revert i. induction Hls as [|l ls Hl _ IH]; intros i; simpl; [done|].
  destruct i as [|i]; simpl.
  - rewrite lookup_app_l by lia. done.
  - rewrite lookup_app_r by lia. rewrite <- IH. f_equal. lia.
Qed.

Lemma length_concat_uniform k ls :
  Forall (fun l => length l = k) ls -> length (concat ls) = length ls * k.
Proof. induction 1 as [|l ls Hl _ IH]; simpl; [done|]. rewrite length_app. lia. Qed.

Lemma length_select (m : list bool) l :
  length m = length l -> length (select m l) = count_true m.
Proof.
  unfold count_true. revert l. induction m as [|b m IH]; intros [|x l] Hlen;
    simplify_eq/=; [done|].
  destruct b; simpl; by rewrite IH.
Qed.

Lemma Forall_select (P : A -> Prop) (m : list bool) l :
  Forall P l -> Forall P (select m l).
Proof.
  intros Hl. revert m. induction Hl as [|x l Hx _ IH]; intros [|[] m]; simpl; auto.
Qed.
End Lists.

(** ** Facts about the array operations *)

Lemma size_1 n : size [n] = n.
Proof. unfold size; simpl; lia. Qed.

Lemma size_2 n k : size [n; k] = n * k.
Proof. unfold size; simpl; lia. Qed.

Section NumpyFacts.
Context {A : Type}.
Implicit Types (a : ndarray A) (l : list A) (ls : list (list A)).

Lemma chunks_singletons n l : length l = n -> chunks n 1 l = map (fun x => [x]) l.
Proof.
  revert n. induction l as [|x l IH]; intros n <-; simpl; [done|].
  rewrite drop_0. f_equal. by apply IH.
Qed.

Lemma transpose_singletons l : transpose 1 (map (fun x => [x]) l) = [l].
Proof. induction l as [|x l IH]; simpl; [done|]. by rewrite IH. Qed.

Lemma concat_singletons l : concat (map (fun x => [x]) l) = l.
Proof. induction l as [|x l IH]; simpl; [done|]. by rewrite IH. Qed.

Lemma select_map {B : Type} (f : A -> B) (m : list bool) l :
  select m (map f l) = map f (select m l).
Proof.
  revert l. induction m as [|b m IH]; intros [|x l]; simpl; try done.
  destruct b; simpl; by rewrite IH.
Qed.

Lemma select_filter (p : A -> bool) l :
  select (map p l) l = filter (fun x => p x = true) l.
Proof.
  induction l as [|x l IH]; simpl; [done|].
  destruct (p x) eqn:Hp.
  - rewrite filter_cons_True by done. by rewrite IH.
  - rewrite filter_cons_False by (rewrite Hp; done). done.
Qed.

Lemma count_true_map (p : A -> bool) l :
  count_true (map p l) = length (filter (fun x => p x = true) l).
Proof.
  rewrite <- select_filter. symmetry. apply length_select. by rewrite length_map.
Qed.

Lemma T_buf_1d n l : length l = n -> T_buf [n] l = l.
Proof.
  intros Hl. simpl. change (size []) with 1.
  rewrite chunks_singletons by done.
  rewrite map_map. simpl. rewrite transpose_singletons. simpl. apply app_nil_r.
Qed.

Lemma getitem_Ok a n rest i :
  shape a = n :: rest -> (- Z.of_nat n <= i < Z.of_nat n)%Z ->
  getitem a i
  = Ok (mk_ndarray rest (take (size rest) (drop (norm_index n i * size rest) (buf a)))).
Proof.
  intros Hsh Hi. unfold getitem, norm_index. rewrite Hsh.
  destruct (i <? 0)%Z eqn:Hneg; [apply Z.ltb_lt in Hneg | apply Z.ltb_ge in Hneg].
  - replace (0 <=? i + Z.of_nat n)%Z with true by (symmetry; apply Z.leb_le; lia).
    replace (i + Z.of_nat n <? Z.of_nat n)%Z with true by (symmetry; apply Z.ltb_lt; lia).
    simpl. rewrite lookup_chunks by lia. done.
  - replace (0 <=? i)%Z with true by (symmetry; apply Z.leb_le; lia).
    replace (i <? Z.of_nat n)%Z with true by (symmetry; apply Z.ltb_lt; lia).
    simpl. rewrite lookup_chunks by lia. done.
Qed.

Lemma getitem_out_of_range a n rest i :
  shape a = n :: rest -> (i < - Z.of_nat n \/ Z.of_nat n <= i)%Z ->
  getitem a i = Raise (index_error i).
Proof.
  intros Hsh Hi. unfold getitem. rewrite Hsh.
  destruct (i <? 0)%Z eqn:Hneg; [apply Z.ltb_lt in Hneg | apply Z.ltb_ge in Hneg].
  - replace (0 <=? i + Z.of_nat n)%Z with false by (symmetry; apply Z.leb_gt; lia).
    done.
  - replace (i <? Z.of_nat n)%Z with false by (symmetry; apply Z.ltb_ge; lia).
    by rewrite andb_false_r.
Qed.

Lemma vstack_1d (cols : list (ndarray A)) L :
  cols <> [] -> Forall (fun c => shape c = [L]) cols ->
  vstack cols = Ok (mk_ndarray [length cols; L] (concat (map buf cols))).
Proof.
  intros Hne Hcols. unfold vstack.
  rewrite (map_ext_Forall atleast_2d (fun c => mk_ndarray [1; L] (buf c))).
  2:{ eapply Forall_impl; [exact Hcols|]. intros c Hc. unfold atleast_2d. by rewrite Hc. }
  destruct cols as [|c cs]; [done|]. clear. simpl.
  assert (forallb (fun b : ndarray A => match shape b with
                                        | [] => false
                                        | _ :: tl' => bool_decide (tl' = [L])
                                        end)
            (map (fun c => mk_ndarray [1; L] (buf c)) cs) = true) as ->.
  { induction cs as [|c' cs IH]; simpl; [done|].
    rewrite IH. by rewrite bool_decide_eq_true_2. }
  do 3 f_equal.
  - induction cs as [|c' cs IH]; simpl; [done|]. by rewrite IH.
  - f_equal. rewrite map_map. done.
Qed.

Lemma T_2d ls L :
  Forall (fun l => length l = L) ls ->
  T (mk_ndarray [length ls; L] (concat ls))
  = mk_ndarray [L; length ls] (concat (transpose L ls)).
Proof.
  intros Hls. unfold T. simpl shape. simpl buf. simpl rev. f_equal.
  change (T_buf [length ls; L] (concat ls))
    with (concat (transpose (size [L])
                    (map (T_buf [L]) (chunks (length ls) (size [L]) (concat ls))))).
  rewrite size_1, chunks_concat by done.
  rewrite (map_ext_Forall (T_buf [L]) id), map_id; [done|].
  eapply Forall_impl; [exact Hls|]. intros l Hl. by apply T_buf_1d.
Qed.

(** Reading the transposed stack of [k] columns of length [L]. *)
Section Matrix.
Variables (L : nat) (ls : list (list A)).
Hypothesis Hls : Forall (fun l => length l = L) ls.
Let M := mk_ndarray [L; length ls] (concat (transpose L ls)).

Lemma rows_matrix : rows M = transpose L ls.
Proof.
  change (rows M) with (chunks L (size [length ls]) (concat (transpose L ls))).
  rewrite size_1. rewrite <- (length_transpose L ls Hls) at 1.
  apply chunks_concat, Forall_length_transpose.
Qed.

Lemma columns_matrix : columns M = ls.
Proof.
  change (columns M) with (transpose (length ls) (rows M)).
  rewrite rows_matrix. by apply transpose_involutive.
Qed.

Lemma wf_matrix : wf M.
Proof.
  unfold wf. change (shape M) with [L; length ls].
  change (buf M) with (concat (transpose L ls)). rewrite size_2.
  rewrite (length_concat_uniform (length ls)) by apply Forall_length_transpose.
  by rewrite length_transpose.
Qed.

Lemma item2_matrix i j : item2 M i j = ls !! j ≫= (.!! i).
Proof.
  change (item2 M i j)
    with (if (i <? L) && (j <? length ls)
          then concat (transpose L ls) !! (i * length ls + j) else None).
  destruct (j <? length ls) eqn:Hj; [apply Nat.ltb_lt in Hj | apply Nat.ltb_ge in Hj].
  - destruct (i <? L) eqn:Hi; simpl.
    + rewrite (lookup_concat_uniform (length ls)) by
        (done || apply Forall_length_transpose).
      by apply lookup_transpose.
    + apply Nat.ltb_ge in Hi.
      destruct (ls !! j) as [l|] eqn:Hl; simpl; [|done].
      symmetry. apply lookup_ge_None.
      rewrite (Forall_lookup_1 _ _ _ _ Hls Hl). lia.
  - rewrite andb_false_r. symmetry.
    rewrite (proj2 (lookup_ge_None ls j)) by lia. done.
Qed.
End Matrix.

Lemma getitem_mask_rows a (m : ndarray bool) n k :
  shape a = [n; k] -> shape m = [n] ->
  getitem_mask a m
  = Ok (mk_ndarray [count_true (buf m); k] (concat (select (buf m) (rows a)))).
Proof.
  intros Ha Hm. unfold getitem_mask, rows. rewrite Ha, Hm.
  cbn [length take drop]. rewrite bool_decide_eq_true_2 by done.
  by rewrite (size_1 n).
Qed.

Lemma getitem_mask_mismatch a (m : ndarray bool) n n' k :
  shape a = [n; k] -> shape m = [n'] -> n <> n' ->
  getitem_mask a m = Raise IndexError.
Proof.
  intros Ha Hm Hne. unfold getitem_mask. rewrite Ha, Hm.
  cbn [length take drop]. rewrite bool_decide_eq_false_2; [done|]. intros [=]. done.
Qed.

Lemma getitem_mask_full a (m : ndarray bool) :
  shape m = shape a -> wf a ->
  getitem_mask a m = Ok (mk_ndarray [count_true (buf m)] (select (buf m) (buf a))).
Proof.
  intros Hm Ha. unfold getitem_mask. rewrite Hm.
  rewrite firstn_all, drop_all.
  rewrite bool_decide_eq_true_2 by done.
  change (size []) with 1.
  rewrite chunks_singletons by done.
  rewrite select_map, concat_singletons. done.
Qed.

Lemma reshape_column a :
  reshape a [-1; 1]%Z = Ok (mk_ndarray [size (shape a); 1] (buf a)).
Proof.
  unfold reshape. simpl.
  rewrite Z.mod_1_r. simpl. rewrite Z.div_1_r, Nat2Z.id. done.
Qed.
End NumpyFacts.

(** ** Facts about [return_features] *)

Lemma Forall_valid_arange n : Forall (valid_index n) (arange n).
Proof.
  unfold arange. apply Forall_forall. intros i Hi.
  apply list_elem_of_In, in_map_iff in Hi as (j & <- & Hj).
  apply in_seq in Hj. unfold valid_index. lia.
Qed.

Lemma length_arange n : length (arange n) = n.
Proof. unfold arange. by rewrite length_map, length_seq. Qed.

Lemma valid_selection_resolve n bands :
  valid_selection n bands ->
  resolve n bands <> [] /\ Forall (valid_index n) (resolve n bands).
Proof.
  destruct bands as [bs|]; simpl; [done|]. intros Hn. split.
  - intros Heq. apply (f_equal length) in Heq. rewrite length_arange in Heq.
    simpl in Heq. lia.
  - apply Forall_valid_arange.
Qed.

Section ReturnFeatures.
Context {A : Type}.
Variable gaussian_filter : ndarray A -> Q -> ndarray A.
Implicit Types (data : ndarray A) (bands : list Z).

Lemma getitem_subarray data n rest i :
  shape data = n :: rest -> valid_index n i ->
  getitem data i = Ok (subarray data (norm_index n i)).
Proof.
  intros Hsh Hi. rewrite (getitem_Ok data n rest) by done.
  unfold subarray. by rewrite Hsh.
Qed.

Lemma norm_index_lt n i : valid_index n i -> norm_index n i < n.
Proof. unfold valid_index, norm_index. destruct (i <? 0)%Z eqn:E; lia. Qed.

Lemma wf_subarray data n rest i :
  shape data = n :: rest -> wf data -> i < n ->
  shape (subarray data i) = rest /\ wf (subarray data i).
Proof.
  unfold wf, subarray. intros -> Hwf Hi. simpl tail. simpl shape. simpl buf.
  split; [done|].
  change (size (n :: rest)) with (n * size rest) in Hwf.
  rewrite length_take, length_drop. nia.
Qed.

Lemma list_comp_getitem (f : ndarray A -> ndarray A) data n rest bands :
  shape data = n :: rest -> Forall (valid_index n) bands ->
  list_comp (fun band => p ← getitem data band; Ok (f p)) bands
  = Ok (map (fun b => f (subarray data (norm_index n b))) bands).
Proof.
  intros Hsh. induction 1 as [|b bands Hb _ IH]; simpl; [done|].
  rewrite (getitem_subarray data n rest) by done. simpl.
  rewrite IH. done.
Qed.

Lemma list_comp_getitem_invalid (f : ndarray A -> ndarray A) data n rest
    (pre : list Z) (b : Z) (post : list Z) :
  shape data = n :: rest ->
  Forall (valid_index n) pre -> ~ valid_index n b ->
  list_comp (fun band => p ← getitem data band; Ok (f p)) (pre ++ b :: post)
  = Raise (index_error b).
Proof.
  intros Hsh Hpre Hb. induction Hpre as [|a pre Ha _ IH]; simpl.
  - rewrite (getitem_out_of_range data n rest); [done..|].
    unfold valid_index in Hb. lia.
  - rewrite (getitem_subarray data n rest) by done. simpl. by rewrite IH.
Qed.

Lemma return_features_Some data nb nr nc bands blurring :
  shape data = [nb; nr; nc] -> wf data ->
  bands <> [] -> Forall (valid_index nb) bands ->
  (blurring = true -> shape_preserving gaussian_filter) ->
  let cols := feature_columns gaussian_filter data nb bands blurring in
  return_features gaussian_filter data (Some bands) blurring
  = Ok (mk_ndarray [nr * nc; length cols] (concat (transpose (nr * nc) cols)))
  /\ Forall (fun c => length c = nr * nc) cols
  /\ length cols = (if blurring then 2 else 1) * length bands.
Proof.
  intros Hsh Hwf Hne Hvalid Hgf cols.
  assert (Hplane : forall b, valid_index nb b ->
            shape (subarray data (norm_index nb b)) = [nr; nc]
            /\ wf (subarray data (norm_index nb b))).
  { intros b Hb. apply (wf_subarray data nb); auto using norm_index_lt. }
  pose (arrs := map (fun b => ravel (subarray data (norm_index nb b))) bands
          ++ (if blurring
              then map (fun b => ravel (gaussian_filter
                                          (subarray data (norm_index nb b)) 2.0%Q)) bands
              else [])).
  assert (Hbuf : map buf arrs = cols).
  { unfold arrs, cols, feature_columns. rewrite map_app, map_map.
    destruct blurring; [by rewrite map_map | done]. }
  assert (Hshape : Forall (fun c => shape c = [nr * nc]) arrs).
  { unfold arrs. apply Forall_app. split.
    - apply Forall_forall. intros c Hc.
      apply list_elem_of_In, in_map_iff in Hc as (b & <- & Hb).
      apply list_elem_of_In in Hb.
      destruct (Hplane b) as [Hs _]; [by eapply Forall_forall|].
      unfold ravel. cbn [shape]. by rewrite Hs, size_2.
    - destruct blurring; [|constructor].
      apply Forall_forall. intros c Hc.
      apply list_elem_of_In, in_map_iff in Hc as (b & <- & Hb).
      apply list_elem_of_In in Hb.
      destruct (Hplane b) as [Hs Hw]; [by eapply Forall_forall|].
      destruct (Hgf eq_refl _ 2.0%Q Hw) as [Hs' _].
      unfold ravel. cbn [shape]. by rewrite Hs', Hs, size_2. }
  assert (Hlen : Forall (fun c => length c = nr * nc) cols).
  { unfold cols, feature_columns. apply Forall_app. split.
    - apply Forall_forall. intros c Hc.
      apply list_elem_of_In, in_map_iff in Hc as (b & <- & Hb).
      apply list_elem_of_In in Hb.
      destruct (Hplane b) as [Hs Hw]; [by eapply Forall_forall|].
      unfold wf in Hw. by rewrite Hw, Hs, size_2.
    - destruct blurring; [|constructor].
      apply Forall_forall. intros c Hc.
      apply list_elem_of_In, in_map_iff in Hc as (b & <- & Hb).
      apply list_elem_of_In in Hb.
      destruct (Hplane b) as [Hs Hw]; [by eapply Forall_forall|].
      destruct (Hgf eq_refl _ 2.0%Q Hw) as [Hs' Hw'].
      unfold wf in Hw'. by rewrite Hw', Hs', Hs, size_2. }
  assert (Hcount : length cols = (if blurring then 2 else 1) * length bands).
  { unfold cols, feature_columns. rewrite length_app, length_map.
    destruct blurring; [rewrite length_map|simpl]; lia. }
  split; [|done].
  unfold return_features. simpl.
  rewrite (list_comp_getitem ravel data nb [nr; nc]) by done. simpl.
  assert (Hall : (if blurring
                  then blurred_1D ← list_comp
                         (fun band => p ← getitem data band;
                                      Ok (ravel (gaussian_filter p 2.0%Q))) bands;
                       Ok (map (fun b => ravel (subarray data (norm_index nb b))) bands
                           ++ blurred_1D)
                  else Ok (map (fun b => ravel (subarray data (norm_index nb b))) bands))
                 = Ok arrs).
  { unfold arrs. destruct blurring; [|by rewrite app_nil_r].
    rewrite (list_comp_getitem (fun p => ravel (gaussian_filter p 2.0%Q)) data nb [nr; nc])
      by done. done. }
  rewrite Hall. simpl.
  rewrite (vstack_1d arrs (nr * nc)); [|unfold arrs; destruct bands; done|done].
  simpl. rewrite Hbuf.
  replace (length arrs) with (length cols) by (by rewrite <- Hbuf, length_map).
  by rewrite T_2d.
Qed.
End ReturnFeatures.

Lemma lookup_map {A B : Type} (f : A -> B) (l : list A) (i : nat) :
  map f l !! i = f <$> l !! i.
Proof. apply (list_lookup_fmap f l i). Qed.

Lemma norm_index_nonneg n i : (0 <= i)%Z -> norm_index n i = Z.to_nat i.
Proof. unfold norm_index. intros Hi. by replace (i <? 0)%Z with false by lia. Qed.

Lemma norm_index_neg n k : 1 <= k <= n -> norm_index n (- Z.of_nat k) = n - k.
Proof.
  unfold norm_index. intros Hk.
  replace (- Z.of_nat k <? 0)%Z with true by lia. lia.
Qed.

Section FeatureMatrix.
Context {A : Type}.
Variable gaussian_filter : ndarray A -> Q -> ndarray A.
Variables (data : ndarray A) (nb nr nc : nat).
Hypothesis Hshape : shape data = [nb; nr; nc].
Hypothesis Hwf : wf data.

(** What [return_features] returns on a valid selection. *)
Lemma return_features_valid bands blurring :
  bands <> [] -> Forall (valid_index nb) bands ->
  (blurring = true -> shape_preserving gaussian_filter) ->
  exists F,
    return_features gaussian_filter data (Some bands) blurring = Ok F
    /\ shape F = [nr * nc; (if blurring then 2 else 1) * length bands]
    /\ wf F
    /\ columns F = feature_columns gaussian_filter data nb bands blurring
    /\ rows F = transpose (nr * nc) (feature_columns gaussian_filter data nb bands blurring)
    /\ forall i j,
         item2 F i j
         = feature_columns gaussian_filter data nb bands blurring !! j ≫= (.!! i).
Proof.
  intros Hne Hvalid Hgf.
  destruct (return_features_Some gaussian_filter data nb nr nc bands blurring)
    as (HF & Hlen & Hcount); try done.
  eexists. split; [exact HF|].
  split; [by rewrite <- Hcount|].
  split; [by apply wf_matrix|].
  split; [by apply columns_matrix|].
  split; [by apply rows_matrix|].
  intros i j. by apply item2_matrix.
Qed.

(** The unblurred column of a selected band, and its entries. *)
Lemma feature_columns_band bands blurring j b :
  bands !! j = Some b ->
  feature_columns gaussian_filter data nb bands blurring !! j
  = Some (buf (subarray data (norm_index nb b))).
Proof.
  intros Hj. unfold feature_columns.
  rewrite lookup_app_l by (rewrite length_map; by eapply lookup_lt_Some).
  by rewrite lookup_map, Hj.
Qed.

Lemma feature_columns_blurred bands j b :
  bands !! j = Some b ->
  feature_columns gaussian_filter data nb bands true !! (length bands + j)
  = Some (buf (gaussian_filter (subarray data (norm_index nb b)) 2.0%Q)).
Proof.
  intros Hj. unfold feature_columns.
  rewrite lookup_app_r by (rewrite length_map; lia).
  rewrite length_map. replace (length bands + j - length bands) with j by lia.
  by rewrite lookup_map, Hj.
Qed.

Lemma subarray_item i r c :
  i < nb -> r < nr -> c < nc ->
  buf (subarray data i) !! (r * nc + c) = item3 data i r c.
Proof.
  intros Hi Hr Hc. unfold subarray, item3. rewrite Hshape. cbn [tail buf].
  rewrite size_2.
  rewrite (proj2 (Nat.ltb_lt i nb)), (proj2 (Nat.ltb_lt r nr)),
    (proj2 (Nat.ltb_lt c nc)) by done.
  cbn [andb].
  assert (r * nc + c < nr * nc).
  { apply Nat.lt_le_trans with ((r + 1) * nc); [lia|].
    apply Nat.mul_le_mono_r. lia. }
  rewrite lookup_take_lt by done. rewrite lookup_drop. f_equal. lia.
Qed.
End FeatureMatrix.

Lemma halving_filter_shape_preserving : shape_preserving halving_filter.
Proof.
  intros p sigma Hp. split; [done|]. unfold wf, halving_filter in *. simpl.
  by rewrite length_map.
Qed.

Example return_features_ex_stack :
  return_features halving_filter ex_stack (Some [0; 1]%Z) false
  = Ok (mk_ndarray [4; 2] [1; 5; 2; 6; 3; 7; 4; 8]%Z).
Proof. reflexivity. Qed.

Example return_features_ex_stack_blurred :
  return_features halving_filter ex_stack (Some [0; 1]%Z) true
  = Ok (mk_ndarray [4; 4] [1; 5; 0; 2; 2; 6; 1; 3; 3; 7; 1; 3; 4; 8; 2; 4]%Z).
Proof. reflexivity. Qed.

Example create_training_data_ex :
  create_training_data halving_filter int64 ex_stack ex_truth (-9999) None
  = Ok (mk_ndarray [2; 2] [1; 5; 4; 8]%Z, mk_ndarray [2; 1] [1; 3]%Z).
Proof. reflexivity. Qed.

(** ** The feature builder *)

(** C2, as the code behaves: with an empty band selection [return_features]
    raises ValueError, whatever the stack and the blur flag, because
    [np.vstack] refuses an empty sequence of arrays; no matrix of zero
    columns is returned. *)
Theorem return_features_empty_selection {A : Type}
    (gaussian_filter : ndarray A -> Q -> ndarray A) (data : ndarray A) (blurring : bool) :
  return_features gaussian_filter data (Some []) blurring = Raise ValueError.
Proof. unfold return_features. by destruct blurring. Qed.

(** C2, refuted as stated: on the two-band 2x2 stack, which has four pixels,
    the empty selection does not yield a matrix of shape (4, 0) but an
    exception. *)
Lemma return_features_empty_selection_raises :
  0 < size (tail (shape ex_stack))
  /\ return_features halving_filter ex_stack (Some []) false = Raise ValueError
  /\ return_features halving_filter ex_stack (Some []) false
     <> Ok (mk_ndarray [size (tail (shape ex_stack)); 0] []).
Proof. split; [vm_compute; lia|]. split; [reflexivity|discriminate]. Qed.

(** C3: for a stack of shape (nb, nr, nc) and a non-empty selection of indices
    in [0, nb), the unblurred feature matrix has shape (nr*nc, len(bands));
    column j is the flattened band bands[j], and the entry at pixel
    r*nc + c of that column is the stack's cell (bands[j], r, c). *)
Theorem return_features_unblurred {A : Type}
    (gaussian_filter : ndarray A -> Q -> ndarray A)
    (data : ndarray A) (nb nr nc : nat) (bands : list Z) :
  shape data = [nb; nr; nc] -> wf data ->
  bands <> [] -> Forall (fun b => 0 <= b < Z.of_nat nb)%Z bands ->
  exists F,
    return_features gaussian_filter data (Some bands) false = Ok F
    /\ shape F = [nr * nc; length bands]
    /\ forall j b, bands !! j = Some b ->
         (exists p, getitem data b = Ok p
                    /\ shape p = [nr; nc]
                    /\ columns F !! j = Some (buf (ravel p)))
         /\ forall r c, r < nr -> c < nc ->
              item2 F (r * nc + c) j = item3 data (Z.to_nat b) r c.
Proof.
  intros Hshape Hwf Hne Hbands.
  assert (Hvalid : Forall (valid_index nb) bands).
  { eapply Forall_impl; [exact Hbands|]. unfold valid_index. intros b Hb. lia. }
  destruct (return_features_valid gaussian_filter data nb nr nc Hshape Hwf bands false)
    as (F & HF & Hsh & _ & Hcols & _ & Hitem); try done.
  exists F. split; [done|]. split; [by rewrite Hsh, Nat.mul_1_l|].
  intros j b Hj.
  assert (Hb : (0 <= b < Z.of_nat nb)%Z) by exact (Forall_lookup_1 _ _ _ _ Hbands Hj).
  split.
  - exists (subarray data (norm_index nb b)).
    split; [apply (getitem_subarray data nb [nr; nc]); [done|]; unfold valid_index; lia|].
    split; [unfold subarray; by rewrite Hshape|].
    rewrite Hcols. by apply feature_columns_band.
  - intros r c Hr Hc. rewrite Hitem, (feature_columns_band _ _ _ _ _ _ b) by done.
    simpl. rewrite norm_index_nonneg by lia.
    apply (subarray_item data nb nr nc); [done|lia|done..].
Qed.

(** The two-band 2x2 stack with the selection [0, 1]. *)
Lemma return_features_unblurred_witness :
  shape ex_stack = [2; 2; 2] /\ wf ex_stack
  /\ [0; 1]%Z <> [] /\ Forall (fun b => 0 <= b < Z.of_nat 2)%Z [0; 1]%Z
  /\ exists F,
       return_features halving_filter ex_stack (Some [0; 1]%Z) false = Ok F
       /\ shape F = [2 * 2; length [0; 1]%Z]
       /\ forall j b, [0; 1]%Z !! j = Some b ->
            (exists p, getitem ex_stack b = Ok p
                       /\ shape p = [2; 2]
                       /\ columns F !! j = Some (buf (ravel p)))
            /\ forall r c, r < 2 -> c < 2 ->
                 item2 F (r * 2 + c) j = item3 ex_stack (Z.to_nat b) r c.
Proof.
  assert (H1 : shape ex_stack = [2; 2; 2]) by reflexivity.
  assert (H2 : wf ex_stack) by reflexivity.
  assert (H3 : [0; 1]%Z <> []) by discriminate.
  assert (H4 : Forall (fun b => 0 <= b < Z.of_nat 2)%Z [0; 1]%Z)
    by (repeat constructor; lia).
  exact (conj H1 (conj H2 (conj H3 (conj H4
           (return_features_unblurred halving_filter ex_stack 2 2 2 [0; 1]%Z
              H1 H2 H3 H4))))).
Defined.

(** C4: with blurring on a shape-preserving filter, the matrix has shape
    (nr*nc, 2*len(bands)); its first len(bands) columns are the unblurred
    matrix, and column len(bands) + j is the flattened result of
    [gaussian_filter] with sigma 2.0 on the plane of band bands[j]. *)
Theorem return_features_blurred {A : Type}
    (gaussian_filter : ndarray A -> Q -> ndarray A)
    (data : ndarray A) (nb nr nc : nat) (bands : list Z) :
  shape_preserving gaussian_filter ->
  shape data = [nb; nr; nc] -> wf data ->
  bands <> [] -> Forall (fun b => 0 <= b < Z.of_nat nb)%Z bands ->
  exists F0 F,
    return_features gaussian_filter data (Some bands) false = Ok F0
    /\ return_features gaussian_filter data (Some bands) true = Ok F
    /\ shape F = [nr * nc; 2 * length bands]
    /\ take (length bands) (columns F) = columns F0
    /\ (forall i j, j < length bands -> item2 F i j = item2 F0 i j)
    /\ forall j b, bands !! j = Some b ->
         exists p, getitem data b = Ok p
                   /\ shape p = [nr; nc]
                   /\ columns F !! (length bands + j)
                      = Some (buf (ravel (gaussian_filter p 2.0%Q))).
Proof.
  intros Hgf Hshape Hwf Hne Hbands.
  assert (Hvalid : Forall (valid_index nb) bands).
  { eapply Forall_impl; [exact Hbands|]. unfold valid_index. intros b Hb. lia. }
  destruct (return_features_valid gaussian_filter data nb nr nc Hshape Hwf bands false)
    as (F0 & HF0 & _ & _ & Hcols0 & _ & Hitem0); try done.
  destruct (return_features_valid gaussian_filter data nb nr nc Hshape Hwf bands true)
    as (F & HF & Hsh & _ & Hcols & _ & Hitem); try done.
  exists F0, F. do 3 (split; [done|]).
  split.
  { rewrite Hcols, Hcols0. unfold feature_columns.
    rewrite take_app_length' by (by rewrite length_map). by rewrite app_nil_r. }
  split.
  { intros i j Hj. rewrite Hitem, Hitem0. unfold feature_columns.
    rewrite app_nil_r. rewrite lookup_app_l by (by rewrite length_map). done. }
  intros j b Hj.
  assert (Hb : valid_index nb b) by exact (Forall_lookup_1 _ _ _ _ Hvalid Hj).
  exists (subarray data (norm_index nb b)).
  split; [by apply (getitem_subarray data nb [nr; nc])|].
  split; [unfold subarray; by rewrite Hshape|].
  rewrite Hcols. by apply feature_columns_blurred.
Qed.

(** The two-band 2x2 stack with the selection [1, 0] and the halving filter. *)
Lemma return_features_blurred_witness :
  shape_preserving halving_filter
  /\ shape ex_stack = [2; 2; 2] /\ wf ex_stack
  /\ [1; 0]%Z <> [] /\ Forall (fun b => 0 <= b < Z.of_nat 2)%Z [1; 0]%Z
  /\ exists F0 F,
       return_features halving_filter ex_stack (Some [1; 0]%Z) false = Ok F0
       /\ return_features halving_filter ex_stack (Some [1; 0]%Z) true = Ok F
       /\ shape F = [2 * 2; 2 * length [1; 0]%Z]
       /\ take (length [1; 0]%Z) (columns F) = columns F0
       /\ (forall i j, j < length [1; 0]%Z -> item2 F i j = item2 F0 i j)
       /\ forall j b, [1; 0]%Z !! j = Some b ->
            exists p, getitem ex_stack b = Ok p
                      /\ shape p = [2; 2]
                      /\ columns F !! (length [1; 0]%Z + j)
                         = Some (buf (ravel (halving_filter p 2.0%Q))).
Proof.
  assert (H1 : shape ex_stack = [2; 2; 2]) by reflexivity.
  assert (H2 : wf ex_stack) by reflexivity.
  assert (H3 : [1; 0]%Z <> []) by discriminate.
  assert (H4 : Forall (fun b => 0 <= b < Z.of_nat 2)%Z [1; 0]%Z)
    by (repeat constructor; lia).
  exact (conj halving_filter_shape_preserving (conj H1 (conj H2 (conj H3 (conj H4
           (return_features_blurred halving_filter ex_stack 2 2 2 [1; 0]%Z
              halving_filter_shape_preserving H1 H2 H3 H4)))))).
Defined.

Lemma bind_Ok_r {A : Type} (m : res A) : (x ← m; Ok x) = m.
Proof. by destruct m. Qed.

Lemma return_features_None {A : Type} (gaussian_filter : ndarray A -> Q -> ndarray A)
    (data : ndarray A) (blurring : bool) :
  return_features gaussian_filter data None blurring
  = n ← len data; return_features gaussian_filter data (Some (arange n)) blurring.
Proof. unfold return_features. by destruct (len data). Qed.

Lemma lookup_arange n i : i < n -> arange n !! i = Some (Z.of_nat i).
Proof.
  intros Hi. unfold arange. rewrite lookup_map, lookup_seq_lt by done. done.
Qed.

(** C5: on a stack of N bands the omitted selection is resolved, at the call,
    to the indices 0, 1, ..., N-1 in that order, and [return_features] returns
    what it returns on that explicit selection, for either blur flag. *)
Theorem return_features_default_selection {A : Type}
    (gaussian_filter : ndarray A -> Q -> ndarray A)
    (data : ndarray A) (N : nat) (blurring : bool) :
  len data = Ok N ->
  length (arange N) = N
  /\ (forall i, i < N -> arange N !! i = Some (Z.of_nat i))
  /\ return_features gaussian_filter data None blurring
     = return_features gaussian_filter data (Some (arange N)) blurring.
Proof.
  intros HN. split; [apply length_arange|]. split; [apply lookup_arange|].
  rewrite return_features_None, HN. done.
Qed.

(** The two-band 2x2 stack: the default is [0, 1]. *)
Lemma return_features_default_selection_witness :
  len ex_stack = Ok 2
  /\ length (arange 2) = 2
  /\ (forall i, i < 2 -> arange 2 !! i = Some (Z.of_nat i))
  /\ return_features halving_filter ex_stack None true
     = return_features halving_filter ex_stack (Some (arange 2)) true.
Proof.
  assert (H : len ex_stack = Ok 2) by reflexivity.
  exact (conj H (return_features_default_selection halving_filter ex_stack 2 true H)).
Defined.

Lemma first_invalid (n : nat) (bands : list Z) :
  Exists (fun b => ~ valid_index n b) bands ->
  exists pre b post,
    bands = pre ++ b :: post /\ Forall (valid_index n) pre /\ ~ valid_index n b.
Proof.
  induction bands as [|a bands IH]; intros Hex; [by apply Exists_nil in Hex|].
  destruct (decide (valid_index n a)) as [Ha|Ha].
  - apply Exists_cons in Hex as [Hex|Hex]; [done|].
    destruct (IH Hex) as (pre & b & post & -> & Hpre & Hb).
    exists (a :: pre), b, post. split; [done|]. split; [by constructor|done].
  - exists [], a, bands. split; [done|]. split; [constructor|done].
Qed.

Lemma index_error_IndexError (i : Z) :
  (i < 2 ^ 63 \/ 2 ^ 64 <= i)%Z -> index_error i = IndexError.
Proof.
  intros Hi. unfold index_error.
  destruct (2 ^ 63 <=? i)%Z eqn:H1; [|done].
  destruct (i <? 2 ^ 64)%Z eqn:H2; [|done].
  apply Z.leb_le in H1. apply Z.ltb_lt in H2. lia.
Qed.

Lemma return_features_first_invalid {A : Type}
    (gaussian_filter : ndarray A -> Q -> ndarray A)
    (data : ndarray A) (n : nat) (rest : list nat)
    (pre : list Z) (b : Z) (post : list Z) (blurring : bool) :
  shape data = n :: rest ->
  Forall (valid_index n) pre -> ~ valid_index n b ->
  return_features gaussian_filter data (Some (pre ++ b :: post)) blurring
  = Raise (index_error b).
Proof.
  intros Hshape Hpre Hb. unfold return_features. simpl.
  by rewrite (list_comp_getitem_invalid ravel data n rest).
Qed.

(** C8, refuted as stated: the index 2^63 is >= 2 and makes [return_features]
    raise OverflowError on the two-band stack, not IndexError. *)
Lemma return_features_overflow_index :
  shape ex_stack = [2; 2; 2] /\ (Z.of_nat 2 <= 2 ^ 63)%Z
  /\ return_features halving_filter ex_stack (Some [2 ^ 63]%Z) false
     = Raise OverflowError
  /\ return_features halving_filter ex_stack (Some [2 ^ 63]%Z) false
     <> Raise IndexError.
Proof. split; [reflexivity|]. split; [done|]. split; [reflexivity|discriminate]. Qed.

(** C8, as the code behaves: on a stack of N bands, a selection that contains
    an index >= N makes [return_features] raise, for either blur flag, and no
    matrix is returned. The exception is that of the first index of the
    selection outside [-N, N): OverflowError when that index lies in
    [2^63, 2^64), IndexError otherwise; so it is IndexError when no index of
    the selection lies in [2^63, 2^64). *)
Theorem return_features_index_out_of_range {A : Type}
    (gaussian_filter : ndarray A -> Q -> ndarray A)
    (data : ndarray A) (N nr nc : nat) (bands : list Z) (blurring : bool) (b : Z) :
  shape data = [N; nr; nc] ->
  b ∈ bands -> (Z.of_nat N <= b)%Z ->
  (exists pre b' post,
     bands = pre ++ b' :: post
     /\ Forall (valid_index N) pre /\ ~ valid_index N b'
     /\ return_features gaussian_filter data (Some bands) blurring
        = Raise (index_error b'))
  /\ (Forall (fun i => i < 2 ^ 63 \/ 2 ^ 64 <= i)%Z bands ->
      return_features gaussian_filter data (Some bands) blurring = Raise IndexError).
Proof.
  intros Hshape Hin Hb.
  destruct (first_invalid N bands) as (pre & b' & post & -> & Hpre & Hb').
  { apply Exists_exists. exists b. split; [done|]. unfold valid_index. lia. }
  pose proof (return_features_first_invalid gaussian_filter data N [nr; nc]
                pre b' post blurring Hshape Hpre Hb') as Hraise.
  split.
  - exists pre, b', post. by repeat split.
  - intros Hfit. rewrite Hraise. f_equal. apply index_error_IndexError.
    apply Forall_app in Hfit as [_ Hfit]. by apply Forall_cons in Hfit as [Hfit _].
Qed.

(** The selection [99] on the two-band stack. *)
Lemma return_features_index_out_of_range_witness :
  shape ex_stack = [2; 2; 2]
  /\ 99%Z ∈ [99%Z] /\ (Z.of_nat 2 <= 99)%Z
  /\ Forall (fun i => i < 2 ^ 63 \/ 2 ^ 64 <= i)%Z [99%Z]
  /\ return_features halving_filter ex_stack (Some [99%Z]) false = Raise IndexError.
Proof.
  assert (H1 : shape ex_stack = [2; 2; 2]) by reflexivity.
  assert (H2 : 99%Z ∈ [99%Z]) by apply list_elem_of_here.
  assert (H3 : (Z.of_nat 2 <= 99)%Z) by (simpl; lia).
  assert (H4 : Forall (fun i => i < 2 ^ 63 \/ 2 ^ 64 <= i)%Z [99%Z])
    by (repeat constructor; lia).
  exact (conj H1 (conj H2 (conj H3 (conj H4
           (proj2 (return_features_index_out_of_range halving_filter ex_stack 2 2 2
                     [99%Z] false 99%Z H1 H2 H3) H4))))).
Defined.

(** C9: [create_prediction_features] returns exactly what [return_features]
    returns without blurring, on the same stack and the same (possibly
    omitted) selection, exceptions included. *)
Theorem create_prediction_features_is_return_features {A : Type}
    (gaussian_filter : ndarray A -> Q -> ndarray A)
    (s2_data : ndarray A) (s2_bands : option (list Z)) :
  create_prediction_features gaussian_filter s2_data s2_bands
  = return_features gaussian_filter s2_data s2_bands false.
Proof.
  unfold create_prediction_features. destruct s2_bands as [bs|].
  - simpl. apply bind_Ok_r.
  - rewrite return_features_None. destruct (len s2_data); simpl; [|done].
    apply bind_Ok_r.
Qed.

(** C10: on a stack of N >= 1 bands, a selection of indices in [-N, N) that
    holds the negative index -k (1 <= k <= N) at position j is accepted. The
    index -k reads the same plane as the index N-k, the plane of shape
    (nr, nc) whose cell (r, c) is the stack's cell (N-k, r, c); column j of
    the matrix is that plane flattened, so its entry at pixel r*nc + c is
    the stack's cell (N-k, r, c); and with blurring column len(bands) + j is
    the flattened filtered plane. *)
Theorem return_features_negative_index {A : Type}
    (gaussian_filter : ndarray A -> Q -> ndarray A)
    (data : ndarray A) (N nr nc : nat) (bands : list Z) (blurring : bool) (j k : nat) :
  shape data = [N; nr; nc] -> wf data ->
  (blurring = true -> shape_preserving gaussian_filter) ->
  Forall (valid_index N) bands ->
  1 <= k <= N -> bands !! j = Some (- Z.of_nat k)%Z ->
  exists F p,
    return_features gaussian_filter data (Some bands) blurring = Ok F
    /\ shape F = [nr * nc; (if blurring then 2 else 1) * length bands]
    /\ getitem data (Z.of_nat (N - k)) = Ok p
    /\ getitem data (- Z.of_nat k) = Ok p
    /\ shape p = [nr; nc] /\ wf p
    /\ (forall r c, r < nr -> c < nc -> item2 p r c = item3 data (N - k) r c)
    /\ columns F !! j = Some (buf (ravel p))
    /\ (forall r c, r < nr -> c < nc ->
          item2 F (r * nc + c) j = item3 data (N - k) r c)
    /\ (blurring = true ->
        columns F !! (length bands + j)
        = Some (buf (ravel (gaussian_filter p 2.0%Q)))).
Proof.
  intros Hshape Hwf Hgf Hvalid Hk Hj.
  assert (Hne : bands <> []) by (intros ->; done).
  destruct (return_features_valid gaussian_filter data N nr nc Hshape Hwf bands blurring)
    as (F & HF & Hsh & _ & Hcols & _ & Hitem); try done.
  destruct (wf_subarray data N [nr; nc] (N - k)) as [Hpsh Hpwf]; [done|done|lia|].
  assert (Hcell : forall r c, r < nr -> c < nc ->
            buf (subarray data (N - k)) !! (r * nc + c) = item3 data (N - k) r c).
  { intros r c Hr Hc. apply (subarray_item data N nr nc); [done|lia|done..]. }
  exists F, (subarray data (N - k)). do 2 (split; [done|]).
  split.
  { rewrite (getitem_subarray data N [nr; nc]) by (done || unfold valid_index; lia).
    rewrite norm_index_nonneg by lia. by rewrite Nat2Z.id. }
  split.
  { rewrite (getitem_subarray data N [nr; nc]) by (done || unfold valid_index; lia).
    by rewrite norm_index_neg. }
  do 2 (split; [done|]).
  split.
  { intros r c Hr Hc. unfold item2. rewrite Hpsh.
    rewrite (proj2 (Nat.ltb_lt r nr)), (proj2 (Nat.ltb_lt c nc)) by done.
    cbn [andb]. by apply Hcell. }
  rewrite Hcols. split.
  { rewrite (feature_columns_band _ _ _ _ _ _ _ Hj). by rewrite norm_index_neg. }
  split.
  - intros r c Hr Hc. rewrite Hitem, (feature_columns_band _ _ _ _ _ _ _ Hj).
    simpl. rewrite norm_index_neg by done. by apply Hcell.
  - intros ->. rewrite (feature_columns_blurred _ _ _ _ _ _ Hj).
    by rewrite norm_index_neg.
Qed.

(** The selection [0, -1] on the two-band stack: -1 is band 1. *)
Lemma return_features_negative_index_witness :
  shape ex_stack = [2; 2; 2] /\ wf ex_stack
  /\ (true = true -> shape_preserving halving_filter)
  /\ Forall (valid_index 2) [0; -1]%Z
  /\ 1 <= 1 <= 2 /\ [0; -1]%Z !! 1 = Some (- Z.of_nat 1)%Z
  /\ exists F p,
       return_features halving_filter ex_stack (Some [0; -1]%Z) true = Ok F
       /\ shape F = [2 * 2; 2 * length [0; -1]%Z]
       /\ getitem ex_stack (Z.of_nat (2 - 1)) = Ok p
       /\ getitem ex_stack (- Z.of_nat 1) = Ok p
       /\ shape p = [2; 2] /\ wf p
       /\ (forall r c, r < 2 -> c < 2 -> item2 p r c = item3 ex_stack (2 - 1) r c)
       /\ columns F !! 1 = Some (buf (ravel p))
       /\ (forall r c, r < 2 -> c < 2 ->
             item2 F (r * 2 + c) 1 = item3 ex_stack (2 - 1) r c)
       /\ (true = true ->
           columns F !! (length [0; -1]%Z + 1)
           = Some (buf (ravel (halving_filter p 2.0%Q)))).
Proof.
  assert (H1 : shape ex_stack = [2; 2; 2]) by reflexivity.
  assert (H2 : wf ex_stack) by reflexivity.
  assert (H3 : true = true -> shape_preserving halving_filter)
    by (intros _; apply halving_filter_shape_preserving).
  assert (H4 : Forall (valid_index 2) [0; -1]%Z)
    by (repeat constructor; unfold valid_index; simpl; lia).
  assert (H5 : 1 <= 1 <= 2) by lia.
  assert (H6 : [0; -1]%Z !! 1 = Some (- Z.of_nat 1)%Z) by reflexivity.
  exact (conj H1 (conj H2 (conj H3 (conj H4 (conj H5 (conj H6
           (return_features_negative_index halving_filter ex_stack 2 2 2
              [0; -1]%Z true 1 1 H1 H2 H3 H4 H5 H6))))))).
Defined.

(** ** Facts about [create_training_data] *)

Lemma select_lookup {A : Type} (m : list bool) (l : list A) (i : nat) :
  length m = length l -> m !! i = Some true ->
  select m l !! count_true (take i m) = l !! i.
Proof.
  unfold count_true. revert l i.
  induction m as [|b m IH]; intros [|x l] i Hlen Hi; simplify_eq/=.
  destruct i as [|i]; simplify_eq/=; [done|].
  destruct b; simpl; by apply IH.
Qed.

Lemma count_true_take_lt (m : list bool) (i : nat) :
  m !! i = Some true -> count_true (take i m) < count_true m.
Proof.
  intros Hi. rewrite <- (length_select m m) by done.
  apply lookup_lt_is_Some. rewrite select_lookup by done. by rewrite Hi.
Qed.

Lemma count_true_valid_mask G nd : count_true (valid_mask G nd) = count_valid G nd.
Proof.
  unfold valid_mask, count_valid, ne, ravel. cbn [buf].
  rewrite count_true_map. f_equal. apply list_filter_iff. intros v.
  rewrite negb_true_iff, Z.eqb_neq. done.
Qed.

Lemma select_valid_mask_abs dt G nd :
  select (valid_mask G nd) (map (np_abs dt) (buf G))
  = map (np_abs dt) (filter (fun v => v <> nd) (buf G)).
Proof.
  unfold valid_mask, ne, ravel. cbn [buf].
  rewrite select_map, select_filter. f_equal. apply list_filter_iff. intros v.
  rewrite negb_true_iff, Z.eqb_neq. done.
Qed.

Section TrainingData.
Context {A : Type}.
Variable gaussian_filter : ndarray A -> Q -> ndarray A.
Variable dtype : int_dtype.
Variables (s2_data : ndarray A) (nb nr nc : nat).
Variables (ground_truth_data : ndarray Z) (gr gc : nat) (no_data_value : Z).
Variable s2_bands : option (list Z).
Hypothesis Hshape : shape s2_data = [nb; nr; nc].
Hypothesis Hwf : wf s2_data.
Hypothesis Hbands : valid_selection nb s2_bands.
Hypothesis Hgshape : shape ground_truth_data = [gr; gc].
Hypothesis Hgwf : wf ground_truth_data.

Let mask := valid_mask ground_truth_data no_data_value.

Lemma length_valid_mask : length mask = gr * gc.
Proof.
  unfold mask, valid_mask, ne, ravel. cbn [buf]. rewrite length_map.
  unfold wf in Hgwf. by rewrite Hgwf, Hgshape, size_2.
Qed.

(** The unmasked feature matrix the assembler starts from. *)
Lemma training_features :
  exists F,
    return_features gaussian_filter s2_data s2_bands false = Ok F
    /\ return_features gaussian_filter s2_data (Some (resolve nb s2_bands)) false = Ok F
    /\ shape F = [nr * nc; length (resolve nb s2_bands)]
    /\ length (rows F) = nr * nc
    /\ Forall (fun r => length r = length (resolve nb s2_bands)) (rows F).
Proof.
  destruct (valid_selection_resolve nb s2_bands Hbands) as [Hne Hvalid].
  destruct (return_features_Some gaussian_filter s2_data nb nr nc
              (resolve nb s2_bands) false) as (HF & Hlen & Hcount); try done.
  rewrite Nat.mul_1_l in Hcount.
  eexists. split; [|split; [exact HF|]].
  { destruct s2_bands as [bs|]; [exact HF|].
    rewrite return_features_None. unfold len. rewrite Hshape. exact HF. }
  cbn [shape]. split; [by rewrite Hcount|].
  rewrite rows_matrix by done. rewrite <- Hcount. split.
  - by apply length_transpose.
  - apply Forall_length_transpose.
Qed.

Lemma create_training_data_resolve :
  create_training_data gaussian_filter dtype s2_data ground_truth_data no_data_value s2_bands
  = create_training_data gaussian_filter dtype s2_data ground_truth_data no_data_value
      (Some (resolve nb s2_bands)).
Proof.
  destruct s2_bands as [bs|]; [done|].
  unfold create_training_data, len. by rewrite Hshape.
Qed.

(** Different pixel counts: the row selection raises IndexError. *)
Lemma create_training_data_mismatch :
  gr * gc <> nr * nc ->
  create_training_data gaussian_filter dtype s2_data ground_truth_data no_data_value s2_bands
  = Raise IndexError.
Proof.
  intros Hne. destruct training_features as (F & _ & HF & Hsh & _).
  rewrite create_training_data_resolve. unfold create_training_data. simpl.
  rewrite HF. simpl.
  rewrite (getitem_mask_mismatch F _ (nr * nc) (gr * gc)
             (length (resolve nb s2_bands))); [done|done| |lia].
  unfold ravel, ne. cbn [shape]. by rewrite Hgshape, size_2.
Qed.

(** Equal pixel counts: the pair that is returned. *)
Lemma create_training_data_valid :
  gr * gc = nr * nc ->
  exists F X y,
    return_features gaussian_filter s2_data s2_bands false = Ok F
    /\ create_training_data gaussian_filter dtype s2_data ground_truth_data
         no_data_value s2_bands = Ok (X, y)
    /\ shape X = [count_true mask; length (resolve nb s2_bands)]
    /\ rows X = select mask (rows F)
    /\ length (rows F) = length mask
    /\ y = mk_ndarray [count_true mask; 1]
             (select mask (map (np_abs dtype) (buf ground_truth_data))).
Proof.
  intros Heq. destruct training_features as (F & HF0 & HF & Hsh & Hlen & Hrows).
  exists F. eexists. eexists. split; [exact HF0|].
  rewrite create_training_data_resolve. unfold create_training_data. simpl.
  rewrite HF. simpl.
  rewrite (getitem_mask_rows F _ (nr * nc) (length (resolve nb s2_bands)));
    [|done|unfold ravel, ne; cbn [shape]; by rewrite Hgshape, size_2, Heq].
  simpl.
  rewrite getitem_mask_full;
    [|done|unfold wf, abs; cbn [shape buf]; by rewrite length_map].
  simpl. unfold copy. rewrite reshape_column. simpl.
  split; [reflexivity|]. cbn [shape]. split; [done|].
  fold mask. split.
  { unfold rows at 1. cbn [shape buf]. rewrite size_1.
    change (chunks (count_true mask) (length (resolve nb s2_bands))
              (concat (select mask (rows F))) = select mask (rows F)).
    rewrite <- (length_select mask (rows F)) by (by rewrite length_valid_mask, Hlen).
    apply chunks_concat. by apply Forall_select. }
  split; [by rewrite length_valid_mask, Hlen|].
  by rewrite Nat.mul_1_r.
Qed.
End TrainingData.

Lemma item2_lookup {A : Type} (a : ndarray A) (n k i j : nat) (x : A) :
  shape a = [n; k] -> item2 a i j = Some x ->
  i < n /\ j < k /\ buf a !! (i * k + j) = Some x.
Proof.
  unfold item2. intros ->.
  destruct (i <? n) eqn:Hi; [|done]. destruct (j <? k) eqn:Hj; [|done].
  apply Nat.ltb_lt in Hi, Hj. done.
Qed.

Lemma valid_mask_lookup G nr nc nd r c v :
  shape G = [nr; nc] -> item2 G r c = Some v -> v <> nd ->
  valid_mask G nd !! (r * nc + c) = Some true.
Proof.
  intros Hsh Hv Hne. destruct (item2_lookup G nr nc r c v Hsh Hv) as (_ & _ & Hb).
  unfold valid_mask, ne, ravel. cbn [buf]. rewrite lookup_map, Hb. simpl.
  f_equal. apply negb_true_iff, Z.eqb_neq. done.
Qed.

(** ** The training pair assembler *)

(** C1, refuted as stated: a ground truth of 3x2 pixels against planes of 2x3
    pixels disagrees in both dimensions, and [create_training_data] returns
    a pair (X, y). *)
Lemma create_training_data_accepts_mismatched_shape :
  tail (shape wide_stack) = [2; 3] /\ shape tall_truth = [3; 2]
  /\ create_training_data halving_filter int64 wide_stack tall_truth 0 None
     = Ok (mk_ndarray [4; 1] [10; 30; 50; 60]%Z, mk_ndarray [4; 1] [1; 2; 3; 5]%Z).
Proof. repeat split. Qed.

(** C1, as the code behaves: there is no shape check. For a stack of shape
    (nb, nr, nc), a valid selection and a ground truth of shape (gr, gc):
    when the pixel counts gr*gc and nr*nc differ, the feature matrix is
    computed and the row selection by the flattened mask then raises
    IndexError; when the pixel counts agree, whatever the two shapes, a pair
    (X, y) is returned. *)
Theorem create_training_data_pixel_count {A : Type}
    (gaussian_filter : ndarray A -> Q -> ndarray A) (dtype : int_dtype)
    (s2_data : ndarray A) (nb nr nc : nat)
    (ground_truth_data : ndarray Z) (gr gc : nat) (no_data_value : Z)
    (s2_bands : option (list Z)) :
  shape s2_data = [nb; nr; nc] -> wf s2_data ->
  valid_selection nb s2_bands ->
  shape ground_truth_data = [gr; gc] -> wf ground_truth_data ->
  (gr * gc <> nr * nc ->
     (exists F, return_features gaussian_filter s2_data s2_bands false = Ok F)
     /\ create_training_data gaussian_filter dtype s2_data ground_truth_data
          no_data_value s2_bands = Raise IndexError)
  /\ (gr * gc = nr * nc ->
        exists X y, create_training_data gaussian_filter dtype s2_data ground_truth_data
                      no_data_value s2_bands = Ok (X, y)).
Proof.
  intros Hshape Hwf Hbands Hgshape Hgwf. split.
  - intros Hne. split.
    + destruct (training_features gaussian_filter s2_data nb nr nc s2_bands)
        as (F & HF & _); try done. by exists F.
    + by apply (create_training_data_mismatch gaussian_filter dtype s2_data nb nr nc
                  ground_truth_data gr gc).
  - intros Heq.
    destruct (create_training_data_valid gaussian_filter dtype s2_data nb nr nc
                ground_truth_data gr gc no_data_value s2_bands)
      as (F & X & y & _ & H & _); try done.
    by exists X, y.
Qed.

(** Planes of 2x3 pixels against a ground truth of 2x2 pixels. *)
Lemma create_training_data_pixel_count_witness :
  shape wide_stack = [1; 2; 3] /\ wf wide_stack
  /\ valid_selection 1 None
  /\ shape ex_truth = [2; 2] /\ wf ex_truth
  /\ 2 * 2 <> 2 * 3
  /\ (exists F, return_features halving_filter wide_stack None false = Ok F)
  /\ create_training_data halving_filter int64 wide_stack ex_truth (-9999) None
     = Raise IndexError.
Proof.
  assert (H1 : shape wide_stack = [1; 2; 3]) by reflexivity.
  assert (H2 : wf wide_stack) by reflexivity.
  assert (H3 : valid_selection 1 None) by (simpl; lia).
  assert (H4 : shape ex_truth = [2; 2]) by reflexivity.
  assert (H5 : wf ex_truth) by reflexivity.
  assert (H6 : 2 * 2 <> 2 * 3) by (simpl; lia).
  exact (conj H1 (conj H2 (conj H3 (conj H4 (conj H5 (conj H6
           (proj1 (create_training_data_pixel_count halving_filter int64 wide_stack 1 2 3
                     ex_truth 2 2 (-9999) None H1 H2 H3 H4 H5) H6))))))).
Defined.

(** C6, refuted as stated: on a stack without bands and a ground truth of the
    shape of its planes, [create_training_data] returns no pair but raises
    ValueError. *)
Lemma create_training_data_zero_bands :
  shape no_band_stack = [0; 2; 2] /\ wf no_band_stack
  /\ shape ex_truth = tail (shape no_band_stack) /\ wf ex_truth
  /\ create_training_data halving_filter int64 no_band_stack ex_truth (-9999) None
     = Raise ValueError.
Proof. repeat split. Qed.

(** C6, as the code behaves: for a stack of shape (nb, nr, nc) with at least
    one band (or, with an explicit selection, a non-empty list of valid
    indices) and a ground truth of shape (nr, nc), [create_training_data]
    returns (X, y) where X and y both have as many rows as the ground truth
    has cells different from the sentinel, and the rows of X are the rows of
    the unmasked feature matrix F at the true positions of the flattened
    mask, in order: the valid pixel at flat position i (cell (r, c) at
    r*nc + c) contributes row i of F. *)
Theorem create_training_data_rows {A : Type}
    (gaussian_filter : ndarray A -> Q -> ndarray A) (dtype : int_dtype)
    (s2_data : ndarray A) (nb nr nc : nat)
    (ground_truth_data : ndarray Z) (no_data_value : Z)
    (s2_bands : option (list Z)) :
  shape s2_data = [nb; nr; nc] -> wf s2_data ->
  valid_selection nb s2_bands ->
  shape ground_truth_data = [nr; nc] -> wf ground_truth_data ->
  let mask := valid_mask ground_truth_data no_data_value in
  let count := count_valid ground_truth_data no_data_value in
  exists F X y,
    return_features gaussian_filter s2_data s2_bands false = Ok F
    /\ create_training_data gaussian_filter dtype s2_data ground_truth_data
         no_data_value s2_bands = Ok (X, y)
    /\ shape X = [count; length (resolve nb s2_bands)]
    /\ shape y = [count; 1]
    /\ length (rows X) = count
    /\ rows X = select mask (rows F)
    /\ (forall i, mask !! i = Some true ->
          rows X !! count_true (take i mask) = rows F !! i)
    /\ (forall r c v, item2 ground_truth_data r c = Some v -> v <> no_data_value ->
          rows X !! count_true (take (r * nc + c) mask) = rows F !! (r * nc + c)).
Proof.
  intros Hshape Hwf Hbands Hgshape Hgwf mask count.
  destruct (create_training_data_valid gaussian_filter dtype s2_data nb nr nc
              ground_truth_data nr nc no_data_value s2_bands)
    as (F & X & y & HF & H & HX & Hrows & Hlen & ->); try done.
  fold mask in HX, Hrows, Hlen.
  assert (Hcount : count_true mask = count) by apply count_true_valid_mask.
  assert (Hsel : forall i, mask !! i = Some true ->
            rows X !! count_true (take i mask) = rows F !! i).
  { intros i Hi. rewrite Hrows. by apply select_lookup. }
  do 3 eexists. split; [exact HF|]. split; [exact H|].
  split; [by rewrite HX, Hcount|].
  split; [cbn [shape]; by rewrite <- Hcount|].
  split; [by rewrite Hrows, length_select|].
  do 2 (split; [done|]).
  intros r c v Hv Hne. apply Hsel. by eapply valid_mask_lookup.
Qed.

(** The two-band stack with the ground truth [[-1, nd], [nd, 3]]. *)
Lemma create_training_data_rows_witness :
  shape ex_stack = [2; 2; 2] /\ wf ex_stack
  /\ valid_selection 2 None
  /\ shape ex_truth = [2; 2] /\ wf ex_truth
  /\ let mask := valid_mask ex_truth (-9999) in
     let count := count_valid ex_truth (-9999) in
     exists F X y,
       return_features halving_filter ex_stack None false = Ok F
       /\ create_training_data halving_filter int64 ex_stack ex_truth (-9999) None = Ok (X, y)
       /\ shape X = [count; length (resolve 2 None)]
       /\ shape y = [count; 1]
       /\ length (rows X) = count
       /\ rows X = select mask (rows F)
       /\ (forall i, mask !! i = Some true ->
             rows X !! count_true (take i mask) = rows F !! i)
       /\ (forall r c v, item2 ex_truth r c = Some v -> v <> (-9999)%Z ->
             rows X !! count_true (take (r * 2 + c) mask) = rows F !! (r * 2 + c)).
Proof.
  assert (H1 : shape ex_stack = [2; 2; 2]) by reflexivity.
  assert (H2 : wf ex_stack) by reflexivity.
  assert (H3 : valid_selection 2 None) by (simpl; lia).
  assert (H4 : shape ex_truth = [2; 2]) by reflexivity.
  assert (H5 : wf ex_truth) by reflexivity.
  exact (conj H1 (conj H2 (conj H3 (conj H4 (conj H5
           (create_training_data_rows halving_filter int64 ex_stack 2 2 2 ex_truth
              (-9999) None H1 H2 H3 H4 H5)))))).
Defined.

Ltac compute_powers :=
  repeat match goal with
         | |- context [(2 ^ ?e)%Z] =>
             let v := eval vm_compute in (2 ^ e)%Z in change (2 ^ e)%Z with v
         | H : context [(2 ^ ?e)%Z] |- _ =>
             let v := eval vm_compute in (2 ^ e)%Z in change (2 ^ e)%Z with v in H
         end.

Lemma dtype_min_neg (dt : int_dtype) : (dtype_min dt < 0)%Z.
Proof. destruct dt; reflexivity. Qed.

Lemma np_abs_min (dt : int_dtype) : np_abs dt (dtype_min dt) = dtype_min dt.
Proof. destruct dt; reflexivity. Qed.

Lemma np_abs_exact (dt : int_dtype) (v : Z) :
  in_dtype dt v -> v <> dtype_min dt -> np_abs dt v = Z.abs v.
Proof.
  unfold np_abs, wrap, in_dtype, dtype_min, dtype_max.
  destruct dt; cbn [dtype_bits]; compute_powers; intros Hv Hne;
    rewrite Z.mod_small by lia; lia.
Qed.

(** C7: the code departs from the claim on a cell that holds the most
    negative value of the raster's integer type. The 64-bit ground truth
    [[-2^63]] with the sentinel -9999 has one valid cell, and y is
    [[-2^63]]: [abs] wraps around, the entry is negative and is not the
    absolute value 2^63. *)
Theorem create_training_data_abs_minimum :
  has_dtype int64 minimum_truth
  /\ item2 minimum_truth 0 0 = Some (- 2 ^ 63)%Z
  /\ create_training_data halving_filter int64 one_pixel_stack minimum_truth (-9999) None
     = Ok (mk_ndarray [1; 1] [7]%Z, mk_ndarray [1; 1] [- 2 ^ 63]%Z).
Proof.
  split; [|split; reflexivity].
  repeat constructor; vm_compute; discriminate.
Qed.

(** X20: for a stack of shape (nb, nr, nc), a valid selection and a ground
    truth of shape (nr, nc) whose cells lie in the range of its integer
    type, y has shape (count, 1) and holds, in row-major order, [abs] of the
    cells different from the sentinel. For such a cell of value v, at its
    rank among the valid cells: the entry is |v|, which is >= 0, when v is
    not the most negative value of the type, and it is v itself, which is
    negative, when it is; so a valid -5 gives 5. *)
Theorem create_training_data_labels {A : Type}
    (gaussian_filter : ndarray A -> Q -> ndarray A) (dtype : int_dtype)
    (s2_data : ndarray A) (nb nr nc : nat)
    (ground_truth_data : ndarray Z) (no_data_value : Z)
    (s2_bands : option (list Z)) :
  shape s2_data = [nb; nr; nc] -> wf s2_data ->
  valid_selection nb s2_bands ->
  shape ground_truth_data = [nr; nc] -> wf ground_truth_data ->
  has_dtype dtype ground_truth_data ->
  let mask := valid_mask ground_truth_data no_data_value in
  exists X y,
    create_training_data gaussian_filter dtype s2_data ground_truth_data
      no_data_value s2_bands = Ok (X, y)
    /\ shape y = [count_valid ground_truth_data no_data_value; 1]
    /\ buf y = map (np_abs dtype)
                 (filter (fun v => v <> no_data_value) (buf ground_truth_data))
    /\ (forall r c v, item2 ground_truth_data r c = Some v -> v <> no_data_value ->
          item2 y (count_true (take (r * nc + c) mask)) 0 = Some (np_abs dtype v)
          /\ (v <> dtype_min dtype -> np_abs dtype v = Z.abs v /\ (0 <= np_abs dtype v)%Z)
          /\ (v = dtype_min dtype -> np_abs dtype v = v /\ (np_abs dtype v < 0)%Z))
    /\ (forall r c, item2 ground_truth_data r c = Some (-5)%Z ->
          (-5)%Z <> no_data_value ->
          item2 y (count_true (take (r * nc + c) mask)) 0 = Some 5%Z).
Proof.
  intros Hshape Hwf Hbands Hgshape Hgwf Hdtype mask.
  destruct (create_training_data_valid gaussian_filter dtype s2_data nb nr nc
              ground_truth_data nr nc no_data_value s2_bands)
    as (F & X & y & _ & H & _ & _ & _ & ->); try done.
  fold mask.
  assert (Hcount : count_true mask = count_valid ground_truth_data no_data_value)
    by apply count_true_valid_mask.
  assert (Hitem : forall r c v,
            item2 ground_truth_data r c = Some v -> v <> no_data_value ->
            item2 (mk_ndarray [count_true mask; 1]
                     (select mask (map (np_abs dtype) (buf ground_truth_data))))
              (count_true (take (r * nc + c) mask)) 0 = Some (np_abs dtype v)).
  { intros r c v Hv Hne.
    assert (Hm : mask !! (r * nc + c) = Some true) by (by eapply valid_mask_lookup).
    destruct (item2_lookup _ nr nc r c v Hgshape Hv) as (_ & _ & Hb).
    unfold item2. cbn [shape buf].
    rewrite (proj2 (Nat.ltb_lt _ _) (count_true_take_lt mask _ Hm)). cbn [andb Nat.ltb Nat.leb].
    rewrite Nat.mul_1_r, Nat.add_0_r.
    rewrite select_lookup; [|unfold mask, valid_mask, ne, ravel; cbn [buf];
                              by rewrite !length_map|done].
    by rewrite lookup_map, Hb. }
  assert (Hrange : forall r c v, item2 ground_truth_data r c = Some v -> in_dtype dtype v).
  { intros r c v Hv. destruct (item2_lookup _ nr nc r c v Hgshape Hv) as (_ & _ & Hb).
    exact (Forall_lookup_1 _ _ _ _ Hdtype Hb). }
  do 2 eexists. split; [exact H|]. cbn [shape buf]. fold mask.
  split; [by rewrite Hcount|].
  split; [apply select_valid_mask_abs|].
  split.
  - intros r c v Hv Hne. split; [by apply Hitem|]. split.
    + intros Hmin. rewrite np_abs_exact by eauto. split; [done|apply Z.abs_nonneg].
    + intros ->. rewrite np_abs_min. split; [done|apply dtype_min_neg].
  - intros r c Hv Hne. rewrite (Hitem r c (-5)%Z Hv Hne). f_equal.
    apply np_abs_exact; [by eapply Hrange|].
    destruct dtype; discriminate.
Qed.

(** The ground truth [[-1, nd], [nd, 3]] with the selection [1]. *)
Lemma create_training_data_labels_witness :
  shape ex_stack = [2; 2; 2] /\ wf ex_stack
  /\ valid_selection 2 (Some [1]%Z)
  /\ shape ex_truth = [2; 2] /\ wf ex_truth
  /\ has_dtype int64 ex_truth
  /\ let mask := valid_mask ex_truth (-9999) in
     exists X y,
       create_training_data halving_filter int64 ex_stack ex_truth (-9999) (Some [1]%Z)
       = Ok (X, y)
       /\ shape y = [count_valid ex_truth (-9999); 1]
       /\ buf y = map (np_abs int64) (filter (fun v => v <> (-9999)%Z) (buf ex_truth))
       /\ (forall r c v, item2 ex_truth r c = Some v -> v <> (-9999)%Z ->
             item2 y (count_true (take (r * 2 + c) mask)) 0 = Some (np_abs int64 v)
             /\ (v <> dtype_min int64 ->
                 np_abs int64 v = Z.abs v /\ (0 <= np_abs int64 v)%Z)
             /\ (v = dtype_min int64 -> np_abs int64 v = v /\ (np_abs int64 v < 0)%Z))
       /\ (forall r c, item2 ex_truth r c = Some (-5)%Z ->
             (-5)%Z <> (-9999)%Z ->
             item2 y (count_true (take (r * 2 + c) mask)) 0 = Some 5%Z).
Proof.
  assert (H1 : shape ex_stack = [2; 2; 2]) by reflexivity.
  assert (H2 : wf ex_stack) by reflexivity.
  assert (H3 : valid_selection 2 (Some [1]%Z)).
  { split; [discriminate|]. repeat constructor; unfold valid_index; simpl; lia. }
  assert (H4 : shape ex_truth = [2; 2]) by reflexivity.
  assert (H5 : wf ex_truth) by reflexivity.
  assert (H6 : has_dtype int64 ex_truth)
    by (repeat constructor; vm_compute; discriminate).
  exact (conj H1 (conj H2 (conj H3 (conj H4 (conj H5 (conj H6
           (create_training_data_labels halving_filter int64 ex_stack 2 2 2 ex_truth
              (-9999) (Some [1]%Z) H1 H2 H3 H4 H5 H6))))))).
Defined.

(** ** Further properties of the feature builder *)

Lemma return_features_nil {A : Type} (gaussian_filter : ndarray A -> Q -> ndarray A)
    (data : ndarray A) (blurring : bool) :
  return_features gaussian_filter data (Some []) blurring = Raise ValueError.
Proof. unfold return_features. by destruct blurring. Qed.

Lemma return_features_invalid {A : Type} (gaussian_filter : ndarray A -> Q -> ndarray A)
    (data : ndarray A) (n : nat) (rest : list nat) (bands : list Z) (blurring : bool) :
  shape data = n :: rest ->
  Exists (fun b => ~ valid_index n b) bands ->
  exists e, return_features gaussian_filter data (Some bands) blurring = Raise e.
Proof.
  intros Hshape Hex.
  destruct (first_invalid n bands Hex) as (pre & b & post & -> & Hpre & Hb).
  exists (index_error b). by apply (return_features_first_invalid _ _ n rest).
Qed.

(** X1: The outcome of [return_features] on an explicit selection is decided by
    the selection alone: ValueError when it is empty; when it holds an index
    outside [-N, N) (so also one below -N), the exception of the first such
    index, OverflowError if that index lies in [2^63, 2^64) and IndexError
    otherwise; and otherwise a well-formed matrix of nr*nc rows and
    len(bands) columns, twice as many with blurring. *)
Theorem return_features_outcome {A : Type}
    (gaussian_filter : ndarray A -> Q -> ndarray A)
    (data : ndarray A) (N nr nc : nat) (bands : list Z) (blurring : bool) :
  shape data = [N; nr; nc] -> wf data ->
  (blurring = true -> shape_preserving gaussian_filter) ->
  (bands = [] ->
     return_features gaussian_filter data (Some bands) blurring = Raise ValueError)
  /\ (forall pre b post,
        bands = pre ++ b :: post ->
        Forall (valid_index N) pre -> ~ valid_index N b ->
        return_features gaussian_filter data (Some bands) blurring
        = Raise (index_error b))
  /\ ((exists F, return_features gaussian_filter data (Some bands) blurring = Ok F)
      <-> bands <> [] /\ Forall (valid_index N) bands)
  /\ (forall F, return_features gaussian_filter data (Some bands) blurring = Ok F ->
        shape F = [nr * nc; (if blurring then 2 else 1) * length bands] /\ wf F).
Proof.
  intros Hshape Hwf Hgf.
  assert (Hnil : bands = [] ->
            return_features gaussian_filter data (Some bands) blurring = Raise ValueError).
  { intros ->. apply return_features_nil. }
  assert (Hinv : Exists (fun b => ~ valid_index N b) bands ->
            exists e,
              return_features gaussian_filter data (Some bands) blurring = Raise e).
  { by apply return_features_invalid with [nr; nc]. }
  assert (Hok : forall F,
            return_features gaussian_filter data (Some bands) blurring = Ok F ->
            bands <> [] /\ Forall (valid_index N) bands).
  { intros F HF. split.
    - intros Hb. rewrite (Hnil Hb) in HF. discriminate.
    - destruct (decide (Forall (valid_index N) bands)) as [|Hn]; [done|].
      apply not_Forall_Exists in Hn; [|apply _].
      destruct (Hinv Hn) as [e He]. rewrite He in HF. discriminate. }
  split; [done|]. split.
  { intros pre b post -> Hpre Hb.
    by apply (return_features_first_invalid _ _ N [nr; nc]). }
  split.
  - split; [intros [F HF]; by apply (Hok F)|]. intros [Hne Hvalid].
    destruct (return_features_valid gaussian_filter data N nr nc Hshape Hwf bands blurring)
      as (F & HF & _); try done. by exists F.
  - intros F HF. destruct (Hok F HF) as [Hne Hvalid].
    destruct (return_features_valid gaussian_filter data N nr nc Hshape Hwf bands blurring)
      as (F' & HF' & Hsh & HwfF & _); try done.
    rewrite HF in HF'. by injection HF' as ->.
Qed.

(** The two-band stack with the selection [0, -3]: -3 is below -2. *)
Lemma return_features_outcome_witness :
  shape ex_stack = [2; 2; 2] /\ wf ex_stack
  /\ (false = true -> shape_preserving halving_filter)
  /\ [0; -3]%Z = [0%Z] ++ (-3)%Z :: []
  /\ Forall (valid_index 2) [0%Z] /\ ~ valid_index 2 (-3)
  /\ return_features halving_filter ex_stack (Some [0; -3]%Z) false
     = Raise (index_error (-3)).
Proof.
  assert (H1 : shape ex_stack = [2; 2; 2]) by reflexivity.
  assert (H2 : wf ex_stack) by reflexivity.
  assert (H3 : false = true -> shape_preserving halving_filter) by discriminate.
  assert (H4 : [0; -3]%Z = [0%Z] ++ (-3)%Z :: []) by reflexivity.
  assert (H5 : Forall (valid_index 2) [0%Z])
    by (repeat constructor; unfold valid_index; simpl; lia).
  assert (H6 : ~ valid_index 2 (-3)) by (unfold valid_index; simpl; lia).
  exact (conj H1 (conj H2 (conj H3 (conj H4 (conj H5 (conj H6
           (proj1 (proj2 (return_features_outcome halving_filter ex_stack 2 2 2
                            [0; -3]%Z false H1 H2 H3)) [0%Z] (-3)%Z [] H4 H5 H6))))))).
Defined.

(** X2: With the selection omitted, a stack without bands makes [return_features]
    raise ValueError, and a stack of N >= 1 bands gives the matrix whose
    column j, for every j < N, is band j: the entry at pixel r*nc + c is the
    cell (j, r, c). *)
Theorem return_features_default_all_bands {A : Type}
    (gaussian_filter : ndarray A -> Q -> ndarray A)
    (data : ndarray A) (N nr nc : nat) (blurring : bool) :
  shape data = [N; nr; nc] -> wf data ->
  (blurring = true -> shape_preserving gaussian_filter) ->
  (N = 0 -> return_features gaussian_filter data None blurring = Raise ValueError)
  /\ (0 < N ->
      exists F,
        return_features gaussian_filter data None blurring = Ok F
        /\ shape F = [nr * nc; (if blurring then 2 else 1) * N]
        /\ forall j r c, j < N -> r < nr -> c < nc ->
             item2 F (r * nc + c) j = item3 data j r c).
Proof.
  intros Hshape Hwf Hgf.
  assert (Hlen : len data = Ok N) by (unfold len; by rewrite Hshape).
  rewrite return_features_None, Hlen. simpl. split.
  - intros ->. apply return_features_nil.
  - intros HN.
    destruct (return_features_valid gaussian_filter data N nr nc Hshape Hwf
                (arange N) blurring) as (F & HF & Hsh & _ & _ & _ & Hitem).
    { intros Heq. apply (f_equal length) in Heq. rewrite length_arange in Heq.
      simpl in Heq. lia. }
    { apply Forall_valid_arange. }
    { done. }
    exists F. split; [done|]. split; [by rewrite Hsh, length_arange|].
    intros j r c Hj Hr Hc.
    rewrite Hitem, (feature_columns_band _ _ _ _ _ _ (Z.of_nat j))
      by (by apply lookup_arange).
    simpl. rewrite norm_index_nonneg, Nat2Z.id by lia.
    by apply (subarray_item data N nr nc).
Qed.

(** The two-band stack: both bands, in order. *)
Lemma return_features_default_all_bands_witness :
  shape ex_stack = [2; 2; 2] /\ wf ex_stack
  /\ (false = true -> shape_preserving halving_filter)
  /\ 0 < 2
  /\ exists F,
       return_features halving_filter ex_stack None false = Ok F
       /\ shape F = [2 * 2; 1 * 2]
       /\ forall j r c, j < 2 -> r < 2 -> c < 2 ->
            item2 F (r * 2 + c) j = item3 ex_stack j r c.
Proof.
  assert (H1 : shape ex_stack = [2; 2; 2]) by reflexivity.
  assert (H2 : wf ex_stack) by reflexivity.
  assert (H3 : false = true -> shape_preserving halving_filter) by discriminate.
  assert (H4 : 0 < 2) by lia.
  exact (conj H1 (conj H2 (conj H3 (conj H4
           (proj2 (return_features_default_all_bands halving_filter ex_stack 2 2 2
                     false H1 H2 H3) H4))))).
Defined.

(** X3: The row of the matrix for the pixel (r, c) is that pixel's feature vector:
    it sits at position r*nc + c, has one entry per feature column, and its
    entry j, for j < len(bands), is the cell (bands[j], r, c) of the stack. *)
Theorem return_features_pixel_row {A : Type}
    (gaussian_filter : ndarray A -> Q -> ndarray A)
    (data : ndarray A) (N nr nc : nat) (bands : list Z) (blurring : bool) (r c : nat) :
  shape data = [N; nr; nc] -> wf data ->
  (blurring = true -> shape_preserving gaussian_filter) ->
  bands <> [] -> Forall (valid_index N) bands ->
  r < nr -> c < nc ->
  exists F row,
    return_features gaussian_filter data (Some bands) blurring = Ok F
    /\ rows F !! (r * nc + c) = Some row
    /\ length row = (if blurring then 2 else 1) * length bands
    /\ forall j b, bands !! j = Some b ->
         row !! j = item3 data (norm_index N b) r c.
Proof.
  intros Hshape Hwf Hgf Hne Hvalid Hr Hc.
  destruct (return_features_Some gaussian_filter data N nr nc bands blurring)
    as (HF & Hlen & Hcount); try done.
  set (cols := feature_columns gaussian_filter data N bands blurring) in *.
  assert (Hi : r * nc + c < nr * nc).
  { apply Nat.lt_le_trans with ((r + 1) * nc); [lia|].
    apply Nat.mul_le_mono_r. lia. }
  destruct (lookup_lt_is_Some_2 (transpose (nr * nc) cols) (r * nc + c)) as [row Hrow].
  { by rewrite length_transpose. }
  eexists. exists row. split; [exact HF|].
  split; [by rewrite rows_matrix|].
  split.
  { rewrite <- Hcount.
    exact (Forall_lookup_1 _ _ _ _ (Forall_length_transpose (nr * nc) cols) Hrow). }
  intros j b Hj.
  assert (Hb : valid_index N b) by exact (Forall_lookup_1 _ _ _ _ Hvalid Hj).
  pose proof (lookup_transpose (nr * nc) cols (r * nc + c) j Hlen) as Ht.
  rewrite Hrow in Ht. simpl in Ht. rewrite Ht.
  unfold cols. rewrite (feature_columns_band _ _ _ _ _ _ b) by done. simpl.
  apply (subarray_item data N nr nc); [done|by apply norm_index_lt|done..].
Qed.

(** The pixel (1, 0) of the two-band stack with the selection [-1, 0]. *)
Lemma return_features_pixel_row_witness :
  shape ex_stack = [2; 2; 2] /\ wf ex_stack
  /\ (false = true -> shape_preserving halving_filter)
  /\ [-1; 0]%Z <> [] /\ Forall (valid_index 2) [-1; 0]%Z
  /\ 1 < 2 /\ 0 < 2
  /\ exists F row,
       return_features halving_filter ex_stack (Some [-1; 0]%Z) false = Ok F
       /\ rows F !! (1 * 2 + 0) = Some row
       /\ length row = 1 * length [-1; 0]%Z
       /\ forall j b, [-1; 0]%Z !! j = Some b ->
            row !! j = item3 ex_stack (norm_index 2 b) 1 0.
Proof.
  assert (H1 : shape ex_stack = [2; 2; 2]) by reflexivity.
  assert (H2 : wf ex_stack) by reflexivity.
  assert (H3 : false = true -> shape_preserving halving_filter) by discriminate.
  assert (H4 : [-1; 0]%Z <> []) by discriminate.
  assert (H5 : Forall (valid_index 2) [-1; 0]%Z)
    by (repeat constructor; unfold valid_index; simpl; lia).
  assert (H6 : 1 < 2) by lia.
  assert (H7 : 0 < 2) by lia.
  exact (conj H1 (conj H2 (conj H3 (conj H4 (conj H5 (conj H6 (conj H7
           (return_features_pixel_row halving_filter ex_stack 2 2 2 [-1; 0]%Z
              false 1 0 H1 H2 H3 H4 H5 H6 H7)))))))).
Defined.

(** X4: Without blurring, the selection is processed index by index: the columns
    for the concatenation of two selections are the columns for the first
    followed by the columns for the second, and an index may be repeated. *)
Theorem return_features_app {A : Type}
    (gaussian_filter : ndarray A -> Q -> ndarray A)
    (data : ndarray A) (N nr nc : nat) (bands1 bands2 : list Z) :
  shape data = [N; nr; nc] -> wf data ->
  bands1 <> [] -> Forall (valid_index N) bands1 ->
  bands2 <> [] -> Forall (valid_index N) bands2 ->
  exists F1 F2 F,
    return_features gaussian_filter data (Some bands1) false = Ok F1
    /\ return_features gaussian_filter data (Some bands2) false = Ok F2
    /\ return_features gaussian_filter data (Some (bands1 ++ bands2)) false = Ok F
    /\ shape F = [nr * nc; length bands1 + length bands2]
    /\ columns F = columns F1 ++ columns F2.
Proof.
  intros Hshape Hwf Hne1 Hv1 Hne2 Hv2.
  destruct (return_features_valid gaussian_filter data N nr nc Hshape Hwf bands1 false)
    as (F1 & HF1 & _ & _ & Hc1 & _); try done.
  destruct (return_features_valid gaussian_filter data N nr nc Hshape Hwf bands2 false)
    as (F2 & HF2 & _ & _ & Hc2 & _); try done.
  destruct (return_features_valid gaussian_filter data N nr nc Hshape Hwf
              (bands1 ++ bands2) false) as (F & HF & Hsh & _ & Hc & _); try done.
  { intros Heq. apply app_eq_nil in Heq as [? _]. done. }
  { by apply Forall_app. }
  exists F1, F2, F. do 3 (split; [done|]).
  split; [by rewrite Hsh, Nat.mul_1_l, length_app|].
  rewrite Hc, Hc1, Hc2. unfold feature_columns.
  by rewrite !app_nil_r, map_app.
Qed.

(** The two-band stack with the selections [1] and [1, 0]. *)
Lemma return_features_app_witness :
  shape ex_stack = [2; 2; 2] /\ wf ex_stack
  /\ [1]%Z <> [] /\ Forall (valid_index 2) [1]%Z
  /\ [1; 0]%Z <> [] /\ Forall (valid_index 2) [1; 0]%Z
  /\ exists F1 F2 F,
       return_features halving_filter ex_stack (Some [1]%Z) false = Ok F1
       /\ return_features halving_filter ex_stack (Some [1; 0]%Z) false = Ok F2
       /\ return_features halving_filter ex_stack (Some ([1] ++ [1; 0])%Z) false = Ok F
       /\ shape F = [2 * 2; length [1]%Z + length [1; 0]%Z]
       /\ columns F = columns F1 ++ columns F2.
Proof.
  assert (H1 : shape ex_stack = [2; 2; 2]) by reflexivity.
  assert (H2 : wf ex_stack) by reflexivity.
  assert (H3 : [1]%Z <> []) by discriminate.
  assert (H4 : Forall (valid_index 2) [1]%Z)
    by (repeat constructor; unfold valid_index; simpl; lia).
  assert (H5 : [1; 0]%Z <> []) by discriminate.
  assert (H6 : Forall (valid_index 2) [1; 0]%Z)
    by (repeat constructor; unfold valid_index; simpl; lia).
  exact (conj H1 (conj H2 (conj H3 (conj H4 (conj H5 (conj H6
           (return_features_app halving_filter ex_stack 2 2 2 [1]%Z [1; 0]%Z
              H1 H2 H3 H4 H5 H6))))))).
Defined.

(** X5: [return_features] does not need three dimensions: on an array of shape
    n :: rest of any rank >= 1, a non-empty selection of valid indices gives a
    matrix with one row per element of a sub-array (the product of [rest])
    and the flattened sub-arrays as columns. *)
Theorem return_features_any_rank {A : Type}
    (gaussian_filter : ndarray A -> Q -> ndarray A)
    (data : ndarray A) (n : nat) (rest : list nat) (bands : list Z) (blurring : bool) :
  shape data = n :: rest -> wf data ->
  (blurring = true -> shape_preserving gaussian_filter) ->
  bands <> [] -> Forall (valid_index n) bands ->
  exists F,
    return_features gaussian_filter data (Some bands) blurring = Ok F
    /\ shape F = [size rest; (if blurring then 2 else 1) * length bands]
    /\ wf F
    /\ columns F = feature_columns gaussian_filter data n bands blurring.
Proof.
  intros Hshape Hwf Hgf Hne Hvalid.
  set (cols := feature_columns gaussian_filter data n bands blurring).
  assert (Hplane : forall b, valid_index n b ->
            shape (subarray data (norm_index n b)) = rest
            /\ wf (subarray data (norm_index n b))).
  { intros b Hb. apply (wf_subarray data n); auto using norm_index_lt. }
  pose (flat := fun p : ndarray A => ravel p).
  pose (blur := fun p : ndarray A => ravel (gaussian_filter p 2.0%Q)).
  pose (arrs := map (fun b => flat (subarray data (norm_index n b))) bands
          ++ (if blurring
              then map (fun b => blur (subarray data (norm_index n b))) bands
              else [])).
  assert (Hbuf : map buf arrs = cols).
  { unfold arrs, cols, feature_columns. rewrite map_app, map_map.
    destruct blurring; [by rewrite map_map | done]. }
  assert (Hshapes : Forall (fun a => shape a = [size rest]) arrs).
  { unfold arrs. apply Forall_app. split.
    - apply Forall_forall. intros a Ha.
      apply list_elem_of_In, in_map_iff in Ha as (b & <- & Hb).
      apply list_elem_of_In in Hb.
      destruct (Hplane b) as [Hs _]; [by eapply Forall_forall|].
      unfold flat, ravel. cbn [shape]. by rewrite Hs.
    - destruct blurring; [|constructor].
      apply Forall_forall. intros a Ha.
      apply list_elem_of_In, in_map_iff in Ha as (b & <- & Hb).
      apply list_elem_of_In in Hb.
      destruct (Hplane b) as [Hs Hw]; [by eapply Forall_forall|].
      destruct (Hgf eq_refl _ 2.0%Q Hw) as [Hs' _].
      unfold blur, ravel. cbn [shape]. by rewrite Hs', Hs. }
  assert (Hlens : Forall (fun l => length l = size rest) cols).
  { unfold cols, feature_columns. apply Forall_app. split.
    - apply Forall_forall. intros l Hl.
      apply list_elem_of_In, in_map_iff in Hl as (b & <- & Hb).
      apply list_elem_of_In in Hb.
      destruct (Hplane b) as [Hs Hw]; [by eapply Forall_forall|].
      unfold wf in Hw. by rewrite Hw, Hs.
    - destruct blurring; [|constructor].
      apply Forall_forall. intros l Hl.
      apply list_elem_of_In, in_map_iff in Hl as (b & <- & Hb).
      apply list_elem_of_In in Hb.
      destruct (Hplane b) as [Hs Hw]; [by eapply Forall_forall|].
      destruct (Hgf eq_refl _ 2.0%Q Hw) as [Hs' Hw'].
      unfold wf in Hw'. by rewrite Hw', Hs', Hs. }
  assert (Hcount : length cols = (if blurring then 2 else 1) * length bands).
  { unfold cols, feature_columns. rewrite length_app, length_map.
    destruct blurring; [rewrite length_map|simpl]; lia. }
  exists (mk_ndarray [size rest; length cols] (concat (transpose (size rest) cols))).
  split.
  { unfold return_features. simpl.
    rewrite (list_comp_getitem ravel data n rest) by done. simpl.
    assert (Hall : (if blurring
                    then blurred_1D ← list_comp
                           (fun band => p ← getitem data band;
                                        Ok (ravel (gaussian_filter p 2.0%Q))) bands;
                         Ok (map (fun b => ravel (subarray data (norm_index n b))) bands
                             ++ blurred_1D)
                    else Ok (map (fun b => ravel (subarray data (norm_index n b))) bands))
                   = Ok arrs).
    { unfold arrs, flat, blur. destruct blurring; [|by rewrite app_nil_r].
      rewrite (list_comp_getitem (fun p => ravel (gaussian_filter p 2.0%Q)) data n rest)
        by done. done. }
    rewrite Hall. simpl.
    rewrite (vstack_1d arrs (size rest)); [|unfold arrs; destruct bands; done|done].
    simpl. rewrite Hbuf.
    replace (length arrs) with (length cols) by (by rewrite <- Hbuf, length_map).
    by rewrite T_2d. }
  split; [by rewrite <- Hcount|].
  split; [by apply wf_matrix|by apply columns_matrix].
Qed.

(** A 2-d array of two rows of three cells, with the selection [1, 0]. *)
Lemma return_features_any_rank_witness :
  let data := mk_ndarray [2; 3] [1; 2; 3; 4; 5; 6]%Z in
  shape data = [2; 3] /\ wf data
  /\ (true = true -> shape_preserving halving_filter)
  /\ [1; 0]%Z <> [] /\ Forall (valid_index 2) [1; 0]%Z
  /\ exists F,
       return_features halving_filter data (Some [1; 0]%Z) true = Ok F
       /\ shape F = [size [3]; 2 * length [1; 0]%Z]
       /\ wf F
       /\ columns F = feature_columns halving_filter data 2 [1; 0]%Z true.
Proof.
  intros data.
  assert (H1 : shape data = [2; 3]) by reflexivity.
  assert (H2 : wf data) by reflexivity.
  assert (H3 : true = true -> shape_preserving halving_filter)
    by (intros _; apply halving_filter_shape_preserving).
  assert (H4 : [1; 0]%Z <> []) by discriminate.
  assert (H5 : Forall (valid_index 2) [1; 0]%Z)
    by (repeat constructor; unfold valid_index; simpl; lia).
  exact (conj H1 (conj H2 (conj H3 (conj H4 (conj H5
           (return_features_any_rank halving_filter data 2 [3] [1; 0]%Z true
              H1 H2 H3 H4 H5)))))).
Defined.

(** ** Further properties of the training pair assembler *)

Lemma create_training_data_default {A : Type}
    (gaussian_filter : ndarray A -> Q -> ndarray A) (dtype : int_dtype)
    (s2_data : ndarray A) (n : nat) (rest : list nat)
    (ground_truth_data : ndarray Z) (no_data_value : Z) (s2_bands : option (list Z)) :
  shape s2_data = n :: rest ->
  create_training_data gaussian_filter dtype s2_data ground_truth_data no_data_value s2_bands
  = create_training_data gaussian_filter dtype s2_data ground_truth_data no_data_value
      (Some (resolve n s2_bands)).
Proof.
  intros Hshape. destruct s2_bands as [bs|]; [done|].
  unfold create_training_data, len. by rewrite Hshape.
Qed.

Lemma create_training_data_raise {A : Type}
    (gaussian_filter : ndarray A -> Q -> ndarray A) (dtype : int_dtype)
    (s2_data : ndarray A) (ground_truth_data : ndarray Z) (no_data_value : Z)
    (bands : list Z) (e : exn) :
  return_features gaussian_filter s2_data (Some bands) false = Raise e ->
  create_training_data gaussian_filter dtype s2_data ground_truth_data no_data_value
    (Some bands) = Raise e.
Proof. intros HF. unfold create_training_data. simpl. by rewrite HF. Qed.

Lemma create_training_data_explicit {A : Type}
    (gaussian_filter : ndarray A -> Q -> ndarray A) (dtype : int_dtype)
    (s2_data : ndarray A) (ground_truth_data : ndarray Z) (gr gc : nat)
    (no_data_value : Z) (bands : list Z) (F : ndarray A) (k : nat) :
  shape ground_truth_data = [gr; gc] -> wf ground_truth_data ->
  return_features gaussian_filter s2_data (Some bands) false = Ok F ->
  shape F = [gr * gc; k] ->
  let mask := valid_mask ground_truth_data no_data_value in
  create_training_data gaussian_filter dtype s2_data ground_truth_data no_data_value
    (Some bands)
  = Ok (mk_ndarray [count_true mask; k] (concat (select mask (rows F))),
        mk_ndarray [count_true mask; 1] (select mask (map (np_abs dtype) (buf ground_truth_data)))).
Proof.
  intros Hgshape Hgwf HF Hsh mask. unfold create_training_data. simpl.
  rewrite HF. simpl.
  rewrite (getitem_mask_rows F _ (gr * gc) k);
    [|done|unfold ravel, ne; cbn [shape]; by rewrite Hgshape, size_2].
  simpl.
  rewrite getitem_mask_full;
    [|done|unfold wf, abs; cbn [shape buf]; by rewrite length_map].
  simpl. unfold copy. rewrite reshape_column. simpl.
  by rewrite Nat.mul_1_r.
Qed.

Lemma valid_selection_iff n s2_bands :
  valid_selection n s2_bands
  <-> resolve n s2_bands <> [] /\ Forall (valid_index n) (resolve n s2_bands).
Proof.
  split; [apply valid_selection_resolve|].
  destruct s2_bands as [bs|]; simpl; [done|]. intros [Hne _].
  destruct n; [by destruct Hne|lia].
Qed.

(** X6: The outcome of [create_training_data] on a stack of shape (N, nr, nc) and
    a ground truth of shape (gr, gc): the exception of the feature builder
    comes first, whatever the ground truth (ValueError for an empty
    selection; for an index outside [-N, N) the exception of the first such
    index, OverflowError if it lies in [2^63, 2^64) and IndexError
    otherwise); a pair is returned exactly when the selection is valid and
    gr*gc = nr*nc. *)
Theorem create_training_data_outcome {A : Type}
    (gaussian_filter : ndarray A -> Q -> ndarray A) (dtype : int_dtype)
    (s2_data : ndarray A) (N nr nc : nat)
    (ground_truth_data : ndarray Z) (gr gc : nat) (no_data_value : Z)
    (s2_bands : option (list Z)) :
  shape s2_data = [N; nr; nc] -> wf s2_data ->
  shape ground_truth_data = [gr; gc] -> wf ground_truth_data ->
  (resolve N s2_bands = [] ->
     create_training_data gaussian_filter dtype s2_data ground_truth_data no_data_value
       s2_bands = Raise ValueError)
  /\ (forall pre b post,
        resolve N s2_bands = pre ++ b :: post ->
        Forall (valid_index N) pre -> ~ valid_index N b ->
        create_training_data gaussian_filter dtype s2_data ground_truth_data no_data_value
          s2_bands = Raise (index_error b))
  /\ ((exists X y,
         create_training_data gaussian_filter dtype s2_data ground_truth_data no_data_value
           s2_bands = Ok (X, y))
      <-> valid_selection N s2_bands /\ gr * gc = nr * nc).
Proof.
  intros Hshape Hwf Hgshape Hgwf.
  rewrite (create_training_data_default _ _ _ N [nr; nc]) by done.
  assert (Hnil : resolve N s2_bands = [] ->
            create_training_data gaussian_filter dtype s2_data ground_truth_data
              no_data_value (Some (resolve N s2_bands)) = Raise ValueError).
  { intros ->. apply create_training_data_raise, return_features_nil. }
  assert (Hinv : Exists (fun b => ~ valid_index N b) (resolve N s2_bands) ->
            exists e,
              create_training_data gaussian_filter dtype s2_data ground_truth_data
                no_data_value (Some (resolve N s2_bands)) = Raise e).
  { intros Hex.
    destruct (return_features_invalid gaussian_filter s2_data N [nr; nc]
                (resolve N s2_bands) false Hshape Hex) as [e He].
    exists e. by apply create_training_data_raise. }
  split; [done|]. split.
  { intros pre b post Hres Hpre Hb. apply create_training_data_raise.
    rewrite Hres. by apply (return_features_first_invalid _ _ N [nr; nc]). }
  split.
  - intros (X & y & HXy).
    assert (Hbands : valid_selection N s2_bands).
    { apply valid_selection_iff. split.
      - intros Hb. rewrite (Hnil Hb) in HXy. discriminate.
      - destruct (decide (Forall (valid_index N) (resolve N s2_bands))) as [|Hn];
          [done|].
        apply not_Forall_Exists in Hn; [|apply _].
        destruct (Hinv Hn) as [e He]. rewrite He in HXy. discriminate. }
    split; [done|].
    destruct (decide (gr * gc = nr * nc)) as [|Hne]; [done|].
    rewrite <- (create_training_data_default _ _ _ N [nr; nc]) in HXy by done.
    rewrite (create_training_data_mismatch gaussian_filter dtype s2_data N nr nc
               ground_truth_data gr gc) in HXy by done.
    discriminate.
  - intros [Hbands Heq].
    rewrite <- (create_training_data_default _ _ _ N [nr; nc]) by done.
    destruct (create_training_data_valid gaussian_filter dtype s2_data N nr nc
                ground_truth_data gr gc no_data_value s2_bands)
      as (F & X & y & _ & H & _); try done.
    by exists X, y.
Qed.

(** The index 2^63 on the two-band stack, with a ground truth of the right
    shape. *)
Lemma create_training_data_outcome_witness :
  shape ex_stack = [2; 2; 2] /\ wf ex_stack
  /\ shape ex_truth = [2; 2] /\ wf ex_truth
  /\ resolve 2 (Some [1; 2 ^ 63]%Z) = [1%Z] ++ (2 ^ 63)%Z :: []
  /\ Forall (valid_index 2) [1%Z] /\ ~ valid_index 2 (2 ^ 63)
  /\ create_training_data halving_filter int64 ex_stack ex_truth (-9999)
       (Some [1; 2 ^ 63]%Z)
     = Raise (index_error (2 ^ 63)).
Proof.
  assert (H1 : shape ex_stack = [2; 2; 2]) by reflexivity.
  assert (H2 : wf ex_stack) by reflexivity.
  assert (H3 : shape ex_truth = [2; 2]) by reflexivity.
  assert (H4 : wf ex_truth) by reflexivity.
  assert (H5 : resolve 2 (Some [1; 2 ^ 63]%Z) = [1%Z] ++ (2 ^ 63)%Z :: [])
    by reflexivity.
  assert (H6 : Forall (valid_index 2) [1%Z])
    by (repeat constructor; unfold valid_index; simpl; lia).
  assert (H7 : ~ valid_index 2 (2 ^ 63)) by (unfold valid_index; simpl; lia).
  exact (conj H1 (conj H2 (conj H3 (conj H4 (conj H5 (conj H6 (conj H7
           (proj1 (proj2 (create_training_data_outcome halving_filter int64 ex_stack
                            2 2 2 ex_truth 2 2 (-9999) (Some [1; 2 ^ 63]%Z)
                            H1 H2 H3 H4)) [1%Z] (2 ^ 63)%Z [] H5 H6 H7)))))))).
Defined.

Lemma select_all {A : Type} (m : list bool) (l : list A) :
  Forall (fun b => b = true) m -> length m = length l -> select m l = l.
Proof.
  intros Hm. revert l. induction Hm as [|b m -> _ IH]; intros [|x l] Hlen;
    simplify_eq/=; [done|]. by rewrite IH.
Qed.

Lemma select_none {A : Type} (m : list bool) (l : list A) :
  Forall (fun b => b = false) m -> select m l = [].
Proof.
  intros Hm. revert l. induction Hm as [|b m -> _ IH]; intros [|x l]; simpl; auto.
Qed.

Lemma valid_mask_all G nd :
  Forall (fun v => v <> nd) (buf G) -> Forall (fun b => b = true) (valid_mask G nd).
Proof.
  unfold valid_mask, ne, ravel. cbn [buf]. induction 1 as [|v l Hv _ IH]; simpl;
    constructor; [|done]. by apply negb_true_iff, Z.eqb_neq.
Qed.

Lemma valid_mask_none G nd :
  Forall (fun v => v = nd) (buf G) -> Forall (fun b => b = false) (valid_mask G nd).
Proof.
  unfold valid_mask, ne, ravel. cbn [buf]. induction 1 as [|v l Hv _ IH]; simpl;
    constructor; [|done]. by apply negb_false_iff, Z.eqb_eq.
Qed.

Lemma item2_concat {A : Type} (rs : list (list A)) (k i j : nat) :
  Forall (fun r => length r = k) rs ->
  item2 (mk_ndarray [length rs; k] (concat rs)) i j = rs !! i ≫= (.!! j).
Proof.
  intros Hrs. unfold item2. cbn [shape buf].
  destruct (j <? k) eqn:Hj; [apply Nat.ltb_lt in Hj | apply Nat.ltb_ge in Hj].
  - destruct (i <? length rs) eqn:Hi; simpl.
    + by apply lookup_concat_uniform.
    + apply Nat.ltb_ge in Hi. by rewrite (proj2 (lookup_ge_None rs i)).
  - rewrite andb_false_r. destruct (rs !! i) as [row|] eqn:Hrow; simpl; [|done].
    symmetry. apply lookup_ge_None.
    rewrite (Forall_lookup_1 _ _ _ _ Hrs Hrow). lia.
Qed.

(** X7: When every cell of the ground truth is the sentinel, [create_training_data]
    raises nothing: it returns an X of shape (0, number of bands) and a y of
    shape (0, 1), both without elements. *)
Theorem create_training_data_all_no_data {A : Type}
    (gaussian_filter : ndarray A -> Q -> ndarray A) (dtype : int_dtype)
    (s2_data : ndarray A) (N nr nc : nat)
    (ground_truth_data : ndarray Z) (no_data_value : Z)
    (s2_bands : option (list Z)) :
  shape s2_data = [N; nr; nc] -> wf s2_data ->
  valid_selection N s2_bands ->
  shape ground_truth_data = [nr; nc] -> wf ground_truth_data ->
  Forall (fun v => v = no_data_value) (buf ground_truth_data) ->
  create_training_data gaussian_filter dtype s2_data ground_truth_data no_data_value s2_bands
  = Ok (mk_ndarray [0; length (resolve N s2_bands)] [], mk_ndarray [0; 1] []).
Proof.
  intros Hshape Hwf Hbands Hgshape Hgwf Hall.
  destruct (training_features gaussian_filter s2_data N nr nc s2_bands)
    as (F & _ & HF & Hsh & _); try done.
  rewrite (create_training_data_default _ _ _ N [nr; nc]) by done.
  rewrite (create_training_data_explicit gaussian_filter dtype s2_data ground_truth_data
             nr nc no_data_value _ F (length (resolve N s2_bands))) by done.
  pose proof (valid_mask_none _ _ Hall) as Hmask.
  rewrite !(select_none _ _ Hmask). simpl.
  assert (count_true (valid_mask ground_truth_data no_data_value) = 0) as ->; [|done].
  rewrite <- (length_select _ (valid_mask ground_truth_data no_data_value)) by done.
  by rewrite select_none.
Qed.

(** The two-band stack under a ground truth of sentinels only. *)
Lemma create_training_data_all_no_data_witness :
  let truth := mk_ndarray [2; 2] [-9999; -9999; -9999; -9999]%Z in
  shape ex_stack = [2; 2; 2] /\ wf ex_stack
  /\ valid_selection 2 None
  /\ shape truth = [2; 2] /\ wf truth
  /\ Forall (fun v => v = (-9999)%Z) (buf truth)
  /\ create_training_data halving_filter int64 ex_stack truth (-9999) None
     = Ok (mk_ndarray [0; length (resolve 2 None)] [], mk_ndarray [0; 1] []).
Proof.
  intros truth.
  assert (H1 : shape ex_stack = [2; 2; 2]) by reflexivity.
  assert (H2 : wf ex_stack) by reflexivity.
  assert (H3 : valid_selection 2 None) by (simpl; lia).
  assert (H4 : shape truth = [2; 2]) by reflexivity.
  assert (H5 : wf truth) by reflexivity.
  assert (H6 : Forall (fun v => v = (-9999)%Z) (buf truth))
    by (repeat constructor).
  exact (conj H1 (conj H2 (conj H3 (conj H4 (conj H5 (conj H6
           (create_training_data_all_no_data halving_filter int64 ex_stack 2 2 2 truth
              (-9999) None H1 H2 H3 H4 H5 H6))))))).
Defined.

(** X8: When no cell of the ground truth is the sentinel, X is the whole matrix
    that [create_prediction_features] returns for the same stack and
    selection, and y is the column of [abs] of all cells; [abs] of a cell is
    its absolute value unless the cell is the most negative value of the
    raster's integer type, which [abs] leaves as it is. *)
Theorem create_training_data_no_sentinel {A : Type}
    (gaussian_filter : ndarray A -> Q -> ndarray A) (dtype : int_dtype)
    (s2_data : ndarray A) (N nr nc : nat)
    (ground_truth_data : ndarray Z) (no_data_value : Z)
    (s2_bands : option (list Z)) :
  shape s2_data = [N; nr; nc] -> wf s2_data ->
  valid_selection N s2_bands ->
  shape ground_truth_data = [nr; nc] -> wf ground_truth_data ->
  has_dtype dtype ground_truth_data ->
  Forall (fun v => v <> no_data_value) (buf ground_truth_data) ->
  exists F,
    create_prediction_features gaussian_filter s2_data s2_bands = Ok F
    /\ create_training_data gaussian_filter dtype s2_data ground_truth_data no_data_value
         s2_bands
       = Ok (F, mk_ndarray [nr * nc; 1] (map (np_abs dtype) (buf ground_truth_data)))
    /\ (forall v, v ∈ buf ground_truth_data ->
          (v <> dtype_min dtype -> np_abs dtype v = Z.abs v)
          /\ (v = dtype_min dtype -> np_abs dtype v = v)).
Proof.
  intros Hshape Hwf Hbands Hgshape Hgwf Hdtype Hall.
  destruct (valid_selection_resolve N s2_bands Hbands) as [Hne Hvalid].
  destruct (return_features_valid gaussian_filter s2_data N nr nc Hshape Hwf
              (resolve N s2_bands) false)
    as (F & HF & Hsh & HwfF & _); try done.
  rewrite Nat.mul_1_l in Hsh.
  exists F. split.
  { unfold create_prediction_features. destruct s2_bands as [bs|]; simpl in *.
    - by rewrite HF.
    - unfold len. rewrite Hshape. simpl. by rewrite HF. }
  split.
  2:{ intros v Hv. split; [|intros ->; apply np_abs_min].
      intros Hmin. apply np_abs_exact; [|done].
      unfold has_dtype in Hdtype. rewrite Forall_forall in Hdtype. by apply Hdtype. }
  rewrite (create_training_data_default _ _ _ N [nr; nc]) by done.
  rewrite (create_training_data_explicit gaussian_filter dtype s2_data ground_truth_data
             nr nc no_data_value _ F (length (resolve N s2_bands))) by done.
  pose proof (valid_mask_all _ _ Hall) as Hmask.
  pose proof (length_valid_mask ground_truth_data nr nc no_data_value Hgshape Hgwf)
    as Hlen.
  assert (Hrows : length (rows F) = nr * nc).
  { unfold rows. rewrite Hsh. apply length_chunks. }
  assert (Hcount : count_true (valid_mask ground_truth_data no_data_value) = nr * nc).
  { rewrite <- (length_select _ (rows F)) by (by rewrite Hlen, Hrows).
    rewrite select_all; [done..|]. by rewrite Hlen, Hrows. }
  rewrite Hcount, !select_all; try done.
  - f_equal. f_equal. destruct F as [sh b]. cbn [shape buf] in *. subst sh.
    f_equal. unfold rows. cbn [shape buf]. apply concat_chunks.
    unfold wf in HwfF. cbn [shape buf] in HwfF. by rewrite HwfF, size_2, size_1.
  - rewrite length_map. unfold wf in Hgwf. by rewrite Hlen, Hgwf, Hgshape, size_2.
  - by rewrite Hlen, Hrows.
Qed.

(** The two-band stack under a ground truth without sentinel. *)
Lemma create_training_data_no_sentinel_witness :
  let truth := mk_ndarray [2; 2] [-1; 2; -3; 4]%Z in
  shape ex_stack = [2; 2; 2] /\ wf ex_stack
  /\ valid_selection 2 None
  /\ shape truth = [2; 2] /\ wf truth
  /\ has_dtype int64 truth
  /\ Forall (fun v => v <> (-9999)%Z) (buf truth)
  /\ exists F,
       create_prediction_features halving_filter ex_stack None = Ok F
       /\ create_training_data halving_filter int64 ex_stack truth (-9999) None
          = Ok (F, mk_ndarray [2 * 2; 1] (map (np_abs int64) (buf truth)))
       /\ (forall v, v ∈ buf truth ->
             (v <> dtype_min int64 -> np_abs int64 v = Z.abs v)
             /\ (v = dtype_min int64 -> np_abs int64 v = v)).
Proof.
  intros truth.
  assert (H1 : shape ex_stack = [2; 2; 2]) by reflexivity.
  assert (H2 : wf ex_stack) by reflexivity.
  assert (H3 : valid_selection 2 None) by (simpl; lia).
  assert (H4 : shape truth = [2; 2]) by reflexivity.
  assert (H5 : wf truth) by reflexivity.
  assert (H6 : has_dtype int64 truth)
    by (repeat constructor; vm_compute; discriminate).
  assert (H7 : Forall (fun v => v <> (-9999)%Z) (buf truth))
    by (repeat constructor; discriminate).
  exact (conj H1 (conj H2 (conj H3 (conj H4 (conj H5 (conj H6 (conj H7
           (create_training_data_no_sentinel halving_filter int64 ex_stack 2 2 2 truth
              (-9999) None H1 H2 H3 H4 H5 H6 H7)))))))).
Defined.

(** X9: Features and label of one pixel stay together. For a cell (r, c) of the
    ground truth whose value v is not the sentinel, let k be the number of
    valid cells before it in row-major order: row k of X holds the stack's
    cells (b, r, c) for the selected bands b, in selection order, and entry k
    of y is [abs] of v, which is |v| unless v is the most negative value of
    the raster's integer type, and v itself when it is. *)
Theorem create_training_data_pixel_pair {A : Type}
    (gaussian_filter : ndarray A -> Q -> ndarray A) (dtype : int_dtype)
    (s2_data : ndarray A) (N nr nc : nat)
    (ground_truth_data : ndarray Z) (no_data_value : Z)
    (s2_bands : option (list Z)) (r c : nat) (v : Z) :
  shape s2_data = [N; nr; nc] -> wf s2_data ->
  valid_selection N s2_bands ->
  shape ground_truth_data = [nr; nc] -> wf ground_truth_data ->
  has_dtype dtype ground_truth_data ->
  item2 ground_truth_data r c = Some v -> v <> no_data_value ->
  let k := count_true (take (r * nc + c) (valid_mask ground_truth_data no_data_value)) in
  exists X y,
    create_training_data gaussian_filter dtype s2_data ground_truth_data no_data_value
      s2_bands = Ok (X, y)
    /\ k < count_valid ground_truth_data no_data_value
    /\ (forall j b, resolve N s2_bands !! j = Some b ->
          item2 X k j = item3 s2_data (norm_index N b) r c)
    /\ item2 y k 0 = Some (np_abs dtype v)
    /\ (v <> dtype_min dtype -> np_abs dtype v = Z.abs v)
    /\ (v = dtype_min dtype -> np_abs dtype v = v).
Proof.
  intros Hshape Hwf Hbands Hgshape Hgwf Hdtype Hv Hne k.
  destruct (valid_selection_resolve N s2_bands Hbands) as [Hnil Hvalid].
  destruct (return_features_Some gaussian_filter s2_data N nr nc
              (resolve N s2_bands) false) as (HF & Hlen & Hcount); try done.
  set (cols := feature_columns gaussian_filter s2_data N (resolve N s2_bands) false) in *.
  set (mask := valid_mask ground_truth_data no_data_value) in *.
  destruct (item2_lookup _ nr nc r c v Hgshape Hv) as (Hr & Hc & Hb).
  assert (Hm : mask !! (r * nc + c) = Some true) by (by eapply valid_mask_lookup).
  pose proof (length_valid_mask ground_truth_data nr nc no_data_value Hgshape Hgwf)
    as Hmlen. fold mask in Hmlen.
  assert (Hk : k < count_true mask) by (by apply count_true_take_lt).
  rewrite (create_training_data_default _ _ _ N [nr; nc]) by done.
  rewrite (create_training_data_explicit gaussian_filter dtype s2_data ground_truth_data
             nr nc no_data_value _ _ (length cols) Hgshape Hgwf HF) by done.
  fold mask. rewrite rows_matrix by done.
  do 2 eexists. split; [reflexivity|].
  split; [unfold k, mask in *; by rewrite <- count_true_valid_mask|].
  split; [|split; [|split]].
  - intros j b Hj.
    assert (Hbv : valid_index N b) by exact (Forall_lookup_1 _ _ _ _ Hvalid Hj).
    rewrite <- (length_select mask (transpose (nr * nc) cols))
      by (by rewrite Hmlen, length_transpose).
    rewrite item2_concat by apply Forall_select, Forall_length_transpose.
    unfold k. rewrite select_lookup by (done || by rewrite Hmlen, length_transpose).
    rewrite lookup_transpose by done.
    unfold cols. rewrite (feature_columns_band _ _ _ _ _ _ b) by done. simpl.
    apply (subarray_item s2_data N nr nc); [done|by apply norm_index_lt|done..].
  - unfold item2. cbn [shape buf].
    rewrite (proj2 (Nat.ltb_lt _ _) Hk). cbn [andb Nat.ltb Nat.leb].
    rewrite Nat.mul_1_r, Nat.add_0_r. unfold k.
    rewrite select_lookup; [|unfold mask, valid_mask, ne, ravel; cbn [buf];
                              by rewrite !length_map|done].
    by rewrite lookup_map, Hb.
  - intros Hmin. apply np_abs_exact; [|done].
    exact (Forall_lookup_1 _ _ _ _ Hdtype Hb).
  - intros ->. apply np_abs_min.
Qed.

(** The cell (1, 1) of the ground truth [[-1, nd], [nd, 3]]. *)
Lemma create_training_data_pixel_pair_witness :
  shape ex_stack = [2; 2; 2] /\ wf ex_stack
  /\ valid_selection 2 None
  /\ shape ex_truth = [2; 2] /\ wf ex_truth
  /\ has_dtype int64 ex_truth
  /\ item2 ex_truth 1 1 = Some 3%Z /\ 3%Z <> (-9999)%Z
  /\ let k := count_true (take (1 * 2 + 1) (valid_mask ex_truth (-9999))) in
     exists X y,
       create_training_data halving_filter int64 ex_stack ex_truth (-9999) None = Ok (X, y)
       /\ k < count_valid ex_truth (-9999)
       /\ (forall j b, resolve 2 None !! j = Some b ->
             item2 X k j = item3 ex_stack (norm_index 2 b) 1 1)
       /\ item2 y k 0 = Some (np_abs int64 3)
       /\ (3%Z <> dtype_min int64 -> np_abs int64 3 = Z.abs 3)
       /\ (3%Z = dtype_min int64 -> np_abs int64 3 = 3%Z).
Proof.
  assert (H1 : shape ex_stack = [2; 2; 2]) by reflexivity.
  assert (H2 : wf ex_stack) by reflexivity.
  assert (H3 : valid_selection 2 None) by (simpl; lia).
  assert (H4 : shape ex_truth = [2; 2]) by reflexivity.
  assert (H5 : wf ex_truth) by reflexivity.
  assert (H6 : has_dtype int64 ex_truth)
    by (repeat constructor; vm_compute; discriminate).
  assert (H7 : item2 ex_truth 1 1 = Some 3%Z) by reflexivity.
  assert (H8 : 3%Z <> (-9999)%Z) by discriminate.
  exact (conj H1 (conj H2 (conj H3 (conj H4 (conj H5 (conj H6 (conj H7 (conj H8
           (create_training_data_pixel_pair halving_filter int64 ex_stack 2 2 2 ex_truth
              (-9999) None 1 1 3%Z H1 H2 H3 H4 H5 H6 H7 H8))))))))).
Defined.

(** ** setup.py: facts about the string operations *)

Lemma lstrip_head (s : str) (c : N) : head (lstrip s) = Some c -> isspace c = false.
Proof.
  induction s as [|a s IH]; simpl; [done|].
  destruct (isspace a) eqn:Ha; [done|]. simpl. by intros [= <-].
Qed.

Lemma lstrip_blank_app (ws s : str) : blank ws -> lstrip (ws ++ s) = lstrip s.
Proof. induction 1 as [|a ws Ha _ IH]; simpl; [done|]. by rewrite Ha. Qed.

Lemma lstrip_id (s : str) :
  (forall c, head s = Some c -> isspace c = false) -> lstrip s = s.
Proof. destruct s as [|a s]; simpl; [done|]. intros H. by rewrite (H a). Qed.

Lemma lstrip_decomp (s : str) : exists ws, blank ws /\ s = ws ++ lstrip s.
Proof.
  induction s as [|a s (ws & Hws & IH)]; simpl; [exists []; split; [constructor|done]|].
  destruct (isspace a) eqn:Ha.
  - exists (a :: ws). split; [by constructor|]. simpl. by rewrite <- IH.
  - exists []. split; [constructor|done].
Qed.

Lemma rstrip_cons (a : N) (s : str) :
  rstrip (a :: s) = [] \/ rstrip (a :: s) = a :: rstrip s.
Proof.
  simpl. destruct (rstrip s); [|by right].
  destruct (isspace a); [by left|by right].
Qed.

Lemma rstrip_last (s : str) (c : N) : last (rstrip s) = Some c -> isspace c = false.
Proof.
  induction s as [|a s IH]; simpl; [done|].
  destruct (rstrip s) as [|x t] eqn:Hr.
  - destruct (isspace a) eqn:Ha; [done|]. simpl. by intros [= <-].
  - intros H. apply IH. exact H.
Qed.

Lemma rstrip_head (s : str) (c : N) : head (rstrip s) = Some c -> head s = Some c.
Proof.
  destruct s as [|a s]; [done|].
  destruct (rstrip_cons a s) as [-> | ->]; [done|]. done.
Qed.

Lemma rstrip_app_blank (s ws : str) : blank ws -> rstrip (s ++ ws) = rstrip s.
Proof.
  intros Hws. induction s as [|a s IH]; simpl.
  - induction Hws as [|b ws Hb _ IH]; simpl; [done|]. by rewrite IH, Hb.
  - by rewrite IH.
Qed.

Lemma rstrip_id (s : str) :
  (forall c, last s = Some c -> isspace c = false) -> rstrip s = s.
Proof.
  induction s as [|a s IH]; [done|]. intros H.
  destruct s as [|x t].
  - simpl. by rewrite (H a).
  - change (rstrip (a :: x :: t))
      with (match rstrip (x :: t) with
            | [] => if isspace a then [] else [a]
            | r => a :: r
            end).
    rewrite IH; [done|]. intros c Hc. by apply H.
Qed.

Lemma rstrip_decomp (s : str) : exists ws, blank ws /\ s = rstrip s ++ ws.
Proof.
  induction s as [|a s (ws & Hws & IH)]; simpl; [exists []; split; [constructor|done]|].
  destruct (rstrip s) as [|x t] eqn:Hr.
  - destruct (isspace a) eqn:Ha.
    + exists (a :: ws). split; [by constructor|]. by rewrite IH at 1.
    + exists ws. split; [done|]. by rewrite IH at 1.
  - exists ws. split; [done|]. simpl. by rewrite IH at 1.
Qed.

Lemma strip_padded (r line : str) :
  r <> [] ->
  (forall c, head r = Some c -> isspace c = false) ->
  (forall c, last r = Some c -> isspace c = false) ->
  padded r line -> strip line = r.
Proof.
  intros Hne Hhead Hlast (ws1 & ws2 & H1 & H2 & ->). unfold strip.
  rewrite lstrip_blank_app by done.
  rewrite lstrip_id.
  - rewrite rstrip_app_blank by done. by apply rstrip_id.
  - intros c Hc. apply Hhead. by destruct r.
Qed.

Lemma strip_ends (s : str) :
  (forall c, head (strip s) = Some c -> isspace c = false)
  /\ (forall c, last (strip s) = Some c -> isspace c = false).
Proof.
  unfold strip. split; intros c Hc.
  - by apply (lstrip_head s), rstrip_head.
  - by apply (rstrip_last (lstrip s)).
Qed.

Lemma strip_decomp (s : str) : exists a b, s = a ++ strip s ++ b.
Proof.
  destruct (lstrip_decomp s) as (a & _ & Ha).
  destruct (rstrip_decomp (lstrip s)) as (b & _ & Hb).
  exists a, b. unfold strip. by rewrite <- Hb.
Qed.

Lemma startswith_true (s sub : str) :
  startswith s sub = true <-> exists t, s = sub ++ t.
Proof.
  revert s. induction sub as [|p sub IH]; intros [|c s]; simpl.
  - split; [intros _; by exists []|done].
  - split; [intros _; by exists (c :: s)|done].
  - split; [done|intros [t Ht]; discriminate].
  - rewrite andb_true_iff, N.eqb_eq, IH. split.
    + intros [-> [t ->]]. by exists t.
    + intros [t [= -> ->]]. split; [done|by exists t].
Qed.

Lemma find_nil (s : str) : find s [] = Some 0.
Proof. by destruct s. Qed.

Lemma find_unfold (s sub : str) :
  find s sub = if startswith s sub then Some 0
               else match s with
                    | [] => None
                    | _ :: s' => S <$> find s' sub
                    end.
Proof. by destruct s. Qed.

Lemma find_Some_occurrence (s sub : str) (i : nat) :
  find s sub = Some i -> exists a b, s = a ++ sub ++ b /\ length a = i.
Proof.
  revert i. induction s as [|c s IH]; intros i; rewrite find_unfold.
  - destruct (startswith [] sub) eqn:Hs; [|done]. intros [= <-].
    apply startswith_true in Hs as [t Ht]. by exists [], t.
  - destruct (startswith (c :: s) sub) eqn:Hs.
    + intros [= <-]. apply startswith_true in Hs as [t Ht]. by exists [], t.
    + destruct (find s sub) as [j|] eqn:Hj; [|done]. simpl. intros [= <-].
      destruct (IH j eq_refl) as (a & b & -> & <-). by exists (c :: a), b.
Qed.

Lemma find_occurrence_le (a sub b : str) :
  exists i, find (a ++ sub ++ b) sub = Some i /\ i <= length a.
Proof.
  induction a as [|c a (i & Hi & Hle)].
  - exists 0. split; [|done]. rewrite find_unfold.
    assert (startswith ([] ++ sub ++ b) sub = true) as ->
      by (apply startswith_true; by exists b).
    done.
  - rewrite find_unfold. destruct (startswith ((c :: a) ++ sub ++ b) sub).
    + exists 0. split; [done|lia].
    + exists (S i). simpl. rewrite Hi. split; [done|lia].
Qed.

Lemma find_before_marker (ln comment_char : str) (i : nat) :
  find ln comment_char = Some i ->
  strip (take i ln) <> [] ->
  find (strip (take i ln)) comment_char = None.
Proof.
  intros Hi Hne.
  destruct (find (strip (take i ln)) comment_char) as [j|] eqn:Hj; [|done].
  exfalso.
  destruct (find_Some_occurrence _ _ _ Hj) as (a' & b' & Hout & _).
  destruct (strip_decomp (take i ln)) as (a & b & Htake).
  rewrite Hout in Htake.
  assert (Hln : ln = (a ++ a') ++ comment_char ++ (b' ++ b ++ drop i ln)).
  { rewrite <- (take_drop i ln) at 1. rewrite Htake.
    by rewrite <- !app_assoc. }
  destruct (find_occurrence_le (a ++ a') comment_char (b' ++ b ++ drop i ln))
    as (i0 & Hi0 & Hle).
  rewrite <- Hln, Hi in Hi0. injection Hi0 as <-.
  assert (Hlen : length (take i ln) <= i) by (rewrite length_take; lia).
  rewrite Htake, !length_app in Hlen. rewrite length_app in Hle.
  assert (comment_char = []) as -> by (destruct comment_char; [done|simpl in *; lia]).
  rewrite find_nil in Hi. injection Hi as <-. by apply Hne.
Qed.

Lemma rstrip_nonspace_cons (h : N) (t : str) :
  isspace h = false -> rstrip (h :: t) = h :: rstrip t.
Proof. intros Hh. simpl. destruct (rstrip t); [by rewrite Hh|done]. Qed.

Lemma rstrip_app_nonblank (a b : str) : rstrip b <> [] -> rstrip (a ++ b) = a ++ rstrip b.
Proof.
  intros Hb. induction a as [|c a IH]; [done|]. simpl. rewrite IH.
  destruct (a ++ rstrip b) eqn:Hab; [|done].
  apply app_eq_nil in Hab as [_ Hab]. by destruct Hb.
Qed.

Lemma startswith_nil (s : str) : startswith s [] = true.
Proof. by destruct s. Qed.

Lemma find_single_None (s : str) (h : N) : find s [h] = None <-> h ∉ s.
Proof.
  induction s as [|c s IH]; rewrite find_unfold; simpl.
  - split; [intros _; apply not_elem_of_nil|done].
  - rewrite startswith_nil, andb_true_r. destruct (c =? h)%N eqn:Hc.
    + apply N.eqb_eq in Hc as ->. split; [done|]. intros H. destruct H. left.
    + apply N.eqb_neq in Hc. rewrite not_elem_of_cons.
      destruct (find s [h]); simpl; split; try done.
      * intros [_ H]. by apply IH in H.
      * intros _. split; [congruence|]. by apply IH.
Qed.

Lemma find_single (a t : str) (h : N) :
  h ∉ a -> find (a ++ h :: t) [h] = Some (length a).
Proof.
  induction a as [|c a IH]; intros Ha; rewrite find_unfold; simpl.
  - by rewrite N.eqb_refl, startswith_nil.
  - apply not_elem_of_cons in Ha as [Hc Ha].
    replace (c =? h)%N with false by (symmetry; apply N.eqb_neq; congruence).
    simpl. by rewrite IH.
Qed.

Lemma blank_not_elem_of (ws : str) (h : N) : blank ws -> isspace h = false -> h ∉ ws.
Proof.
  intros Hws Hh Hin. unfold blank in Hws. rewrite Forall_forall in Hws.
  apply Hws in Hin. congruence.
Qed.

(** ** setup.py: [_load_requirements] *)

Lemma load_requirements_loop (comment_char : str) (lines reqs : list str) :
  foldl (fun reqs ln =>
           let ln := match find ln comment_char with
                     | Some i => strip (take i ln)
                     | None => ln
                     end in
           if startswith ln (codes "http") then reqs
           else match ln with
                | [] => reqs
                | _ :: _ => reqs ++ [ln]
                end)
    reqs lines
  = reqs ++ omap (requirement_of comment_char) lines.
Proof.
  revert reqs. induction lines as [|ln lines IH]; intros reqs.
  - by rewrite app_nil_r.
  - cbn [foldl]. rewrite IH. cbn [omap list_omap]. unfold requirement_of at 2.
    cbv zeta.
    destruct (startswith _ (codes "http")); [done|].
    destruct (match find ln comment_char with
              | Some i => strip (take i ln)
              | None => ln
              end); [done|].
    by rewrite <- app_assoc.
Qed.

Section LoadRequirements.
Context {E : Type}.
Variable path_join : str -> str -> str.
Variable readlines : str -> E + list str.
Variables (path_dir file_name comment_char : str) (file_lines : list str).
Hypothesis Hfile : readlines (path_join path_dir file_name) = inr file_lines.

Lemma load_requirements_omap :
  _load_requirements path_join readlines path_dir file_name comment_char
  = inr (omap (requirement_of comment_char) (map strip file_lines)).
Proof.
  unfold _load_requirements. rewrite Hfile. f_equal.
  apply (load_requirements_loop comment_char (map strip file_lines) []).
Qed.
End LoadRequirements.

Lemma requirement_of_clean (comment_char line r : str) :
  requirement_of comment_char (strip line) = Some r -> clean comment_char r.
Proof.
  unfold requirement_of.
  destruct (find (strip line) comment_char) as [i|] eqn:Hfind.
  - destruct (startswith (strip (take i (strip line))) (codes "http")) eqn:Hhttp; [done|].
    destruct (strip (take i (strip line))) as [|x out] eqn:Hout; [done|].
    intros [= <-]. rewrite <- Hout in *.
    assert (Hne : strip (take i (strip line)) <> []) by (by rewrite Hout).
    destruct (strip_ends (take i (strip line))) as [Hhead Hlast].
    repeat split; try done. by apply find_before_marker.
  - destruct (startswith (strip line) (codes "http")) eqn:Hhttp; [done|].
    destruct (strip line) as [|x out] eqn:Hout; [done|].
    intros [= <-]. rewrite <- Hout in *.
    destruct (strip_ends line) as [Hhead Hlast].
    repeat split; try done. by rewrite Hout.
Qed.

Lemma requirement_of_padded (comment_char r line : str) :
  clean comment_char r -> padded r line ->
  requirement_of comment_char (strip line) = Some r.
Proof.
  intros (Hne & Hhead & Hlast & Hhttp & Hfind) Hpad.
  rewrite (strip_padded r line) by done.
  unfold requirement_of. rewrite Hfind, Hhttp. by destruct r.
Qed.

Lemma requirement_of_commented (h : N) (r line : str) :
  isspace h = false -> clean [h] r -> commented h r line ->
  requirement_of [h] (strip line) = Some r.
Proof.
  intros Hh Hclean (ws1 & ws2 & H1 & H2 & [-> | [t ->]]).
  { apply requirement_of_padded; [done|]. by exists ws1, ws2. }
  destruct Hclean as (Hne & Hhead & Hlast & Hhttp & Hfind).
  assert (Hstrip : strip (ws1 ++ r ++ ws2 ++ h :: t) = (r ++ ws2) ++ h :: rstrip t).
  { unfold strip. rewrite lstrip_blank_app by done.
    rewrite lstrip_id by (intros c Hc; apply Hhead; by destruct r).
    rewrite app_assoc, rstrip_app_nonblank.
    - by rewrite rstrip_nonspace_cons.
    - by rewrite rstrip_nonspace_cons. }
  assert (Hnotin : h ∉ r ++ ws2).
  { rewrite not_elem_of_app. split; [by apply find_single_None|].
    by apply blank_not_elem_of. }
  unfold requirement_of. rewrite Hstrip, find_single by done.
  rewrite take_app_length.
  rewrite (strip_padded r (r ++ ws2)); [|done..|exists [], ws2; split; [constructor|done]].
  rewrite Hhttp. by destruct r.
Qed.

Lemma length_omap_le {A B : Type} (f : A -> option B) (l : list A) :
  length (omap f l) <= length l.
Proof.
  induction l as [|x l IH]; [done|]. cbn [omap list_omap].
  destruct (f x); simpl; lia.
Qed.

(** X10: Whatever the file holds, every requirement that [_load_requirements]
    returns is a non-empty text without white space at either end, that does
    not start with "http" and does not contain the comment marker; there are
    at most as many requirements as lines. *)
Theorem load_requirements_clean {E : Type}
    (path_join : str -> str -> str) (readlines : str -> E + list str)
    (path_dir file_name comment_char : str) (file_lines : list str) :
  readlines (path_join path_dir file_name) = inr file_lines ->
  exists reqs,
    _load_requirements path_join readlines path_dir file_name comment_char = inr reqs
    /\ Forall (clean comment_char) reqs
    /\ length reqs <= length file_lines.
Proof.
  intros Hfile. eexists. split; [by apply load_requirements_omap|]. split.
  - apply Forall_forall. intros r Hr.
    apply list_elem_of_omap in Hr as (ln & Hln & Hr).
    apply list_elem_of_In, in_map_iff in Hln as (line & <- & _).
    by apply requirement_of_clean in Hr.
  - etrans; [apply length_omap_le|]. by rewrite length_map.
Qed.

(** X11: Requirements written one per line come back as they are: when the lines
    of the file are clean requirements, each between optional white space
    (such as the final newline), the result is the list of these
    requirements in the order of the lines. *)
Theorem load_requirements_round_trip {E : Type}
    (path_join : str -> str -> str) (readlines : str -> E + list str)
    (path_dir file_name comment_char : str) (reqs file_lines : list str) :
  readlines (path_join path_dir file_name) = inr file_lines ->
  Forall (clean comment_char) reqs ->
  Forall2 padded reqs file_lines ->
  _load_requirements path_join readlines path_dir file_name comment_char = inr reqs.
Proof.
  intros Hfile Hclean Hlines.
  rewrite (load_requirements_omap _ _ _ _ _ _ Hfile). f_equal. clear Hfile.
  induction Hlines as [|r line reqs file_lines Hpad _ IH]; [done|].
  apply Forall_cons in Hclean as [Hr Hclean].
  cbn [map omap list_omap]. rewrite (requirement_of_padded _ r) by done.
  by rewrite IH.
Qed.

(** X12: With a one-character marker that is not white space, such as '#', a
    comment after a requirement is cut off together with the white space in
    front of it: lines of the form "requirement  # comment", with or without
    the comment, give the list of the requirements. *)
Theorem load_requirements_comments {E : Type}
    (path_join : str -> str -> str) (readlines : str -> E + list str)
    (path_dir file_name : str) (h : N) (reqs file_lines : list str) :
  isspace h = false ->
  readlines (path_join path_dir file_name) = inr file_lines ->
  Forall (clean [h]) reqs ->
  Forall2 (commented h) reqs file_lines ->
  _load_requirements path_join readlines path_dir file_name [h] = inr reqs.
Proof.
  intros Hh Hfile Hclean Hlines.
  rewrite (load_requirements_omap _ _ _ _ _ _ Hfile). f_equal. clear Hfile.
  induction Hlines as [|r line reqs file_lines Hcom _ IH]; [done|].
  apply Forall_cons in Hclean as [Hr Hclean].
  cbn [map omap list_omap]. rewrite (requirement_of_commented h r) by done.
  by rewrite IH.
Qed.

(** X13: Loading is stable: writing the requirements that were loaded from one
    file into another, one per line, and loading that file with the same
    marker gives the same requirements. *)
Theorem load_requirements_reload {E : Type}
    (path_join : str -> str -> str) (readlines : str -> E + list str)
    (dir1 name1 dir2 name2 comment_char : str) (file_lines reqs : list str) :
  readlines (path_join dir1 name1) = inr file_lines ->
  _load_requirements path_join readlines dir1 name1 comment_char = inr reqs ->
  readlines (path_join dir2 name2) = inr (map (fun r => r ++ [10%N]) reqs) ->
  _load_requirements path_join readlines dir2 name2 comment_char = inr reqs.
Proof.
  intros Hfile1 Hreqs Hfile2.
  assert (Hclean : Forall (clean comment_char) reqs).
  { rewrite (load_requirements_omap _ _ _ _ _ _ Hfile1) in Hreqs.
    injection Hreqs as <-.
    apply Forall_forall. intros r Hr.
    apply list_elem_of_omap in Hr as (ln & Hln & Hr).
    apply list_elem_of_In, in_map_iff in Hln as (line & <- & _).
    by apply requirement_of_clean in Hr. }
  rewrite (load_requirements_omap _ _ _ _ _ _ Hfile2). f_equal. clear Hfile2 Hreqs.
  induction Hclean as [|r reqs Hr _ IH]; [done|].
  cbn [map omap list_omap]. rewrite (requirement_of_padded _ r), IH; [done..|].
  exists [], [10%N]. split; [constructor|]. split; [by repeat constructor|done].
Qed.

Lemma lstrip_blank (ws : str) : blank ws -> lstrip ws = [].
Proof. intros Hws. rewrite <- (app_nil_r ws). by rewrite lstrip_blank_app. Qed.

Lemma requirement_of_skipped (h : N) (line : str) :
  isspace h = false ->
  blank line
  \/ (exists ws t, blank ws /\ line = ws ++ h :: t)
  \/ (exists u, padded u line /\ startswith u (codes "http") = true
                /\ (forall c, last u = Some c -> isspace c = false) /\ h ∉ u) ->
  requirement_of [h] (strip line) = None.
Proof.
  intros Hh [Hblank | [(ws & t & Hws & ->) | (u & Hpad & Hhttp & Hlast & Hu)]].
  - unfold strip. by rewrite lstrip_blank.
  - assert (strip (ws ++ h :: t) = [] ++ h :: rstrip t) as ->.
    { unfold strip. rewrite lstrip_blank_app by done. simpl lstrip. rewrite Hh.
      by rewrite rstrip_nonspace_cons. }
    unfold requirement_of. rewrite find_single by apply not_elem_of_nil. done.
  - apply startswith_true in Hhttp as Hu'. destruct Hu' as [t Ht].
    rewrite (strip_padded u line); [| |intros c Hc|done..].
    + unfold requirement_of.
      by rewrite (proj2 (find_single_None u h) Hu), Hhttp.
    + by rewrite Ht.
    + rewrite Ht in Hc. by injection Hc as <-.
Qed.

(** X14: With a one-character marker that is not white space, three kinds of line
    leave no trace in the result: a line of white space only, a line whose
    first visible character is the marker, and a line without marker whose
    text starts with "http". Loading the file with such a line and loading
    it without that line give the same. *)
Theorem load_requirements_skips {E : Type}
    (path_join : str -> str -> str) (readlines : str -> E + list str)
    (dir1 name1 dir2 name2 : str) (h : N) (before after : list str) (line : str) :
  isspace h = false ->
  readlines (path_join dir1 name1) = inr (before ++ line :: after) ->
  readlines (path_join dir2 name2) = inr (before ++ after) ->
  blank line
  \/ (exists ws t, blank ws /\ line = ws ++ h :: t)
  \/ (exists u, padded u line /\ startswith u (codes "http") = true
                /\ (forall c, last u = Some c -> isspace c = false) /\ h ∉ u) ->
  _load_requirements path_join readlines dir1 name1 [h]
  = _load_requirements path_join readlines dir2 name2 [h].
Proof.
  intros Hh Hfile1 Hfile2 Hline.
  rewrite (load_requirements_omap _ _ _ _ _ _ Hfile1),
    (load_requirements_omap _ _ _ _ _ _ Hfile2).
  f_equal. rewrite !map_app, !omap_app. f_equal.
  cbn [map omap list_omap]. by rewrite requirement_of_skipped.
Qed.

(** X15: Every line is handled on its own and the order of the lines is kept: the
    requirements of a file whose lines are those of a first file followed by
    those of a second are the requirements of the first followed by those
    of the second. *)
Theorem load_requirements_app {E : Type}
    (path_join : str -> str -> str) (readlines : str -> E + list str)
    (dir1 name1 dir2 name2 dir name comment_char : str) (lines1 lines2 : list str) :
  readlines (path_join dir1 name1) = inr lines1 ->
  readlines (path_join dir2 name2) = inr lines2 ->
  readlines (path_join dir name) = inr (lines1 ++ lines2) ->
  exists reqs1 reqs2,
    _load_requirements path_join readlines dir1 name1 comment_char = inr reqs1
    /\ _load_requirements path_join readlines dir2 name2 comment_char = inr reqs2
    /\ _load_requirements path_join readlines dir name comment_char
       = inr (reqs1 ++ reqs2).
Proof.
  intros H1 H2 H.
  rewrite (load_requirements_omap _ _ _ _ _ _ H1),
    (load_requirements_omap _ _ _ _ _ _ H2), (load_requirements_omap _ _ _ _ _ _ H).
  do 2 eexists. do 2 (split; [reflexivity|]).
  by rewrite map_app, omap_app.
Qed.

Ltac solve_clean :=
  split; [discriminate|];
  split; [intros ? Hc; vm_compute in Hc; injection Hc as <-; reflexivity|];
  split; [intros ? Hc; vm_compute in Hc; injection Hc as <-; reflexivity|];
  split; reflexivity.

Ltac solve_blank := repeat (constructor; try reflexivity).

(** A file with a requirement, a comment, an empty line and a URL. *)
Lemma load_requirements_clean_witness :
  let files := [(codes "reqs/requirements.txt",
                 [codes "  numpy>=1.0  # arrays" ++ [10%N]; [10%N];
                  codes "# tools" ++ [10%N]; codes "http://x.org/p.whl" ++ [10%N];
                  codes "scipy"])] in
  read_from files (slash_join (codes "reqs") (codes "requirements.txt"))
  = inr (snd (files !!! 0))
  /\ exists reqs,
       _load_requirements slash_join (read_from files) (codes "reqs")
         (codes "requirements.txt") (codes "#") = inr reqs
       /\ Forall (clean (codes "#")) reqs
       /\ length reqs <= length (snd (files !!! 0)).
Proof.
  intros files.
  assert (H : read_from files (slash_join (codes "reqs") (codes "requirements.txt"))
              = inr (snd (files !!! 0))) by reflexivity.
  exact (conj H (load_requirements_clean slash_join (read_from files) (codes "reqs")
                   (codes "requirements.txt") (codes "#") _ H)).
Defined.

(** Two requirements, one per line. *)
Lemma load_requirements_round_trip_witness :
  let lines := [codes "numpy" ++ [10%N]; [32%N] ++ codes "scipy"] in
  let files := [(codes "d/f", lines)] in
  let reqs := [codes "numpy"; codes "scipy"] in
  read_from files (slash_join (codes "d") (codes "f")) = inr lines
  /\ Forall (clean (codes "#")) reqs
  /\ Forall2 padded reqs lines
  /\ _load_requirements slash_join (read_from files) (codes "d") (codes "f") (codes "#")
     = inr reqs.
Proof.
  intros lines files reqs.
  assert (H1 : read_from files (slash_join (codes "d") (codes "f")) = inr lines)
    by reflexivity.
  assert (H2 : Forall (clean (codes "#")) reqs).
  { repeat (constructor; [solve_clean|]). constructor. }
  assert (H3 : Forall2 padded reqs lines).
  { constructor; [|constructor; [|constructor]].
    - exists [], [10%N]. split; [solve_blank|]. split; [solve_blank|reflexivity].
    - exists [32%N], []. split; [solve_blank|]. split; [solve_blank|reflexivity]. }
  exact (conj H1 (conj H2 (conj H3
           (load_requirements_round_trip slash_join (read_from files) (codes "d")
              (codes "f") (codes "#") reqs lines H1 H2 H3)))).
Defined.

(** A requirement with a trailing comment and one without. *)
Lemma load_requirements_comments_witness :
  let lines := [codes "numpy  # arrays" ++ [10%N]; codes "scipy" ++ [10%N]] in
  let files := [(codes "d/f", lines)] in
  let reqs := [codes "numpy"; codes "scipy"] in
  isspace 35 = false
  /\ read_from files (slash_join (codes "d") (codes "f")) = inr lines
  /\ Forall (clean [35%N]) reqs
  /\ Forall2 (commented 35) reqs lines
  /\ _load_requirements slash_join (read_from files) (codes "d") (codes "f") [35%N]
     = inr reqs.
Proof.
  intros lines files reqs.
  assert (H0 : isspace 35 = false) by reflexivity.
  assert (H1 : read_from files (slash_join (codes "d") (codes "f")) = inr lines)
    by reflexivity.
  assert (H2 : Forall (clean [35%N]) reqs).
  { repeat (constructor; [solve_clean|]). constructor. }
  assert (H3 : Forall2 (commented 35) reqs lines).
  { constructor; [|constructor; [|constructor]].
    - exists [], [32%N; 32%N]. split; [solve_blank|]. split; [solve_blank|].
      right. exists (codes " arrays" ++ [10%N]). reflexivity.
    - exists [], [10%N]. split; [solve_blank|]. split; [solve_blank|].
      left. reflexivity. }
  exact (conj H0 (conj H1 (conj H2 (conj H3
           (load_requirements_comments slash_join (read_from files) (codes "d")
              (codes "f") 35%N reqs lines H0 H1 H2 H3))))).
Defined.

(** The requirement of a commented line, written back and loaded again. *)
Lemma load_requirements_reload_witness :
  let files := [(codes "a/in.txt", [codes " numpy # x" ++ [10%N]]);
                (codes "a/out.txt", [codes "numpy" ++ [10%N]])] in
  let reqs := [codes "numpy"] in
  read_from files (slash_join (codes "a") (codes "in.txt"))
  = inr [codes " numpy # x" ++ [10%N]]
  /\ _load_requirements slash_join (read_from files) (codes "a") (codes "in.txt")
       (codes "#") = inr reqs
  /\ read_from files (slash_join (codes "a") (codes "out.txt"))
     = inr (map (fun r => r ++ [10%N]) reqs)
  /\ _load_requirements slash_join (read_from files) (codes "a") (codes "out.txt")
       (codes "#") = inr reqs.
Proof.
  intros files reqs.
  assert (H1 : read_from files (slash_join (codes "a") (codes "in.txt"))
               = inr [codes " numpy # x" ++ [10%N]]) by reflexivity.
  assert (H2 : _load_requirements slash_join (read_from files) (codes "a")
                 (codes "in.txt") (codes "#") = inr reqs) by reflexivity.
  assert (H3 : read_from files (slash_join (codes "a") (codes "out.txt"))
               = inr (map (fun r => r ++ [10%N]) reqs)) by reflexivity.
  exact (conj H1 (conj H2 (conj H3
           (load_requirements_reload slash_join (read_from files) (codes "a")
              (codes "in.txt") (codes "a") (codes "out.txt") (codes "#") _ reqs
              H1 H2 H3)))).
Defined.

(** A comment line between two requirements. *)
Lemma load_requirements_skips_witness :
  let before := [codes "numpy" ++ [10%N]] in
  let after := [codes "scipy" ++ [10%N]] in
  let line := [32%N] ++ 35%N :: codes " tools" ++ [10%N] in
  let files := [(codes "a/with", before ++ line :: after);
                (codes "a/without", before ++ after)] in
  isspace 35 = false
  /\ read_from files (slash_join (codes "a") (codes "with"))
     = inr (before ++ line :: after)
  /\ read_from files (slash_join (codes "a") (codes "without")) = inr (before ++ after)
  /\ (blank line
      \/ (exists ws t, blank ws /\ line = ws ++ 35%N :: t)
      \/ (exists u, padded u line /\ startswith u (codes "http") = true
                    /\ (forall c, last u = Some c -> isspace c = false) /\ 35%N ∉ u))
  /\ _load_requirements slash_join (read_from files) (codes "a") (codes "with") [35%N]
     = _load_requirements slash_join (read_from files) (codes "a") (codes "without")
         [35%N].
Proof.
  intros before after line files.
  assert (H0 : isspace 35 = false) by reflexivity.
  assert (H1 : read_from files (slash_join (codes "a") (codes "with"))
               = inr (before ++ line :: after)) by reflexivity.
  assert (H2 : read_from files (slash_join (codes "a") (codes "without"))
               = inr (before ++ after)) by reflexivity.
  assert (H3 : blank line
               \/ (exists ws t, blank ws /\ line = ws ++ 35%N :: t)
               \/ (exists u, padded u line /\ startswith u (codes "http") = true
                     /\ (forall c, last u = Some c -> isspace c = false) /\ 35%N ∉ u)).
  { right. left. exists [32%N], (codes " tools" ++ [10%N]).
    split; [solve_blank|reflexivity]. }
  exact (conj H0 (conj H1 (conj H2 (conj H3
           (load_requirements_skips slash_join (read_from files) (codes "a")
              (codes "with") (codes "a") (codes "without") 35%N before after line
              H0 H1 H2 H3))))).
Defined.

(** Two files and the file that holds the lines of both. *)
Lemma load_requirements_app_witness :
  let lines1 := [codes "numpy" ++ [10%N]; codes "# x" ++ [10%N]] in
  let lines2 := [codes "scipy" ++ [10%N]] in
  let files := [(codes "a/1", lines1); (codes "a/2", lines2);
                (codes "a/12", lines1 ++ lines2)] in
  read_from files (slash_join (codes "a") (codes "1")) = inr lines1
  /\ read_from files (slash_join (codes "a") (codes "2")) = inr lines2
  /\ read_from files (slash_join (codes "a") (codes "12")) = inr (lines1 ++ lines2)
  /\ exists reqs1 reqs2,
       _load_requirements slash_join (read_from files) (codes "a") (codes "1")
         (codes "#") = inr reqs1
       /\ _load_requirements slash_join (read_from files) (codes "a") (codes "2")
            (codes "#") = inr reqs2
       /\ _load_requirements slash_join (read_from files) (codes "a") (codes "12")
            (codes "#") = inr (reqs1 ++ reqs2).
Proof.
  intros lines1 lines2 files.
  assert (H1 : read_from files (slash_join (codes "a") (codes "1")) = inr lines1)
    by reflexivity.
  assert (H2 : read_from files (slash_join (codes "a") (codes "2")) = inr lines2)
    by reflexivity.
  assert (H3 : read_from files (slash_join (codes "a") (codes "12"))
               = inr (lines1 ++ lines2)) by reflexivity.
  exact (conj H1 (conj H2 (conj H3
           (load_requirements_app slash_join (read_from files) (codes "a") (codes "1")
              (codes "a") (codes "2") (codes "a") (codes "12") (codes "#")
              lines1 lines2 H1 H2 H3)))).
Defined.

(** ** setup.py: [_find_optional_installs] *)

Lemma group_until_dot_name (name post : str) :
  (46%N ∉ name) -> (10%N ∉ name) ->
  group_until_dot (name ++ 46%N :: post) = Some name.
Proof.
  induction name as [|c name IH]; intros Hdot Hnl; simpl; [done|].
  apply not_elem_of_cons in Hdot as [Hc1 Hdot].
  apply not_elem_of_cons in Hnl as [Hc2 Hnl].
  replace (c =? 46)%N with false by (symmetry; apply N.eqb_neq; congruence).
  replace (c =? 10)%N with false by (symmetry; apply N.eqb_neq; congruence).
  by rewrite IH.
Qed.

Lemma group_until_dot_Some (s g : str) :
  group_until_dot s = Some g ->
  (46%N ∉ g) /\ (10%N ∉ g) /\ exists post, s = g ++ 46%N :: post.
Proof.
  revert g. induction s as [|c s IH]; intros g; simpl; [done|].
  destruct (c =? 46)%N eqn:Hdot.
  - intros [= <-]. apply N.eqb_eq in Hdot as ->.
    split; [apply not_elem_of_nil|]. split; [apply not_elem_of_nil|]. by exists s.
  - destruct (c =? 10)%N eqn:Hnl; [done|].
    destruct (group_until_dot s) as [g'|]; [|done]. simpl. intros [= <-].
    apply N.eqb_neq in Hdot, Hnl.
    destruct (IH g' eq_refl) as (H1 & H2 & post & ->).
    split; [rewrite not_elem_of_cons; split; [congruence|done]|].
    split; [rewrite not_elem_of_cons; split; [congruence|done]|].
    by exists post.
Qed.

(** X16: The optional name that the search extracts from a file name of the form
    prefix-name.rest, where the prefix has no '-' and the name has neither
    '.' nor newline, is that name: "requirements-dev.txt" gives "dev", and
    a '-' inside the name is kept. *)
Theorem search_dash_group_name (pre name post : str) :
  (45%N ∉ pre) -> (46%N ∉ name) -> (10%N ∉ name) ->
  search_dash_group (pre ++ 45%N :: name ++ 46%N :: post) = Some name.
Proof.
  intros Hpre Hdot Hnl. induction pre as [|c pre IH]; simpl.
  - by rewrite group_until_dot_name.
  - apply not_elem_of_cons in Hpre as [Hc Hpre].
    replace (c =? 45)%N with false by (symmetry; apply N.eqb_neq; congruence).
    by apply IH.
Qed.

(** The file name requirements-dev-tools.txt. *)
Lemma search_dash_group_name_witness :
  (45%N ∉ codes "requirements") /\ (46%N ∉ codes "dev-tools")
  /\ (10%N ∉ codes "dev-tools")
  /\ search_dash_group (codes "requirements" ++ 45%N :: codes "dev-tools"
                          ++ 46%N :: codes "txt")
     = Some (codes "dev-tools").
Proof.
  assert (H1 : 45%N ∉ codes "requirements")
    by (apply (bool_decide_unpack _); vm_compute; exact I).
  assert (H2 : 46%N ∉ codes "dev-tools")
    by (apply (bool_decide_unpack _); vm_compute; exact I).
  assert (H3 : 10%N ∉ codes "dev-tools")
    by (apply (bool_decide_unpack _); vm_compute; exact I).
  exact (conj H1 (conj H2 (conj H3
           (search_dash_group_name (codes "requirements") (codes "dev-tools")
              (codes "txt") H1 H2 H3)))).
Defined.

(** X17: Whatever the search extracts lies in the file name between a '-' and the
    '.' that follows it, and holds neither '.' nor newline; a file name
    without '-' gives no match. *)
Theorem search_dash_group_sound (s : str) :
  (forall g, search_dash_group s = Some g ->
     (46%N ∉ g) /\ (10%N ∉ g)
     /\ exists pre post, s = pre ++ 45%N :: g ++ 46%N :: post)
  /\ ((45%N ∉ s) -> search_dash_group s = None).
Proof.
  split.
  - induction s as [|c s IH]; intros g; simpl; [done|].
    assert (Hrec : search_dash_group s = Some g ->
              (46%N ∉ g) /\ (10%N ∉ g)
              /\ exists pre post, c :: s = pre ++ 45%N :: g ++ 46%N :: post).
    { intros Hg. destruct (IH g Hg) as (H1 & H2 & pre & post & ->).
      do 2 (split; [done|]). by exists (c :: pre), post. }
    destruct (c =? 45)%N eqn:Hc; [|done].
    apply N.eqb_eq in Hc as ->.
    destruct (group_until_dot s) as [g'|] eqn:Hg'; [|done].
    intros [= <-]. destruct (group_until_dot_Some s g' Hg') as (H1 & H2 & post & ->).
    do 2 (split; [done|]). by exists [], post.
  - induction s as [|c s IH]; intros Hs; simpl; [done|].
    apply not_elem_of_cons in Hs as [Hc Hs].
    replace (c =? 45)%N with false by (symmetry; apply N.eqb_neq; congruence).
    by apply IH.
Qed.

Section FindOptionalInstalls.
Context {E : Type}.
Variable path_join : str -> str -> str.
Variable basename : str -> str.
Variable glob : str -> list str.
Variable readlines : str -> E + list str.
Variable requirements_dir : str.

Local Abbreviation is_optional_file :=
  (optional_file path_join basename readlines requirements_dir).

Lemma optional_file_step (p n : str) (rest : list str) (d0 : gmap str (list str)) :
  is_optional_file p n ->
  exists reqs,
    _load_requirements path_join readlines requirements_dir (basename p) (codes "#")
    = inr reqs
    /\ _find_optional_installs_loop path_join basename readlines requirements_dir
         (p :: rest) d0
       = _find_optional_installs_loop path_join basename readlines requirements_dir
           rest (<[n := reqs]> d0).
Proof.
  intros ((post & Hname) & Hdot & Hnl & lines & Hfile).
  eexists. split; [by apply load_requirements_omap|].
  cbn [_find_optional_installs_loop]. rewrite Hname.
  change (codes "requirements-" ++ n ++ 46%N :: post)
    with (codes "requirements" ++ 45%N :: n ++ 46%N :: post).
  rewrite search_dash_group_name; [|apply (bool_decide_unpack _); vm_compute; exact I
                                   |done..].
  change (codes "requirements" ++ 45%N :: n ++ 46%N :: post)
    with (codes "requirements-" ++ n ++ 46%N :: post).
  rewrite <- Hname. by rewrite (load_requirements_omap _ _ _ _ _ _ Hfile).
Qed.

Lemma find_optional_installs_loop_spec (paths names : list str)
    (d0 : gmap str (list str)) :
  Forall2 is_optional_file paths names ->
  exists d,
    _find_optional_installs_loop path_join basename readlines requirements_dir paths d0
    = inr d
    /\ (forall k, k ∉ names -> d !! k = d0 !! k)
    /\ (forall i p n, paths !! i = Some p -> names !! i = Some n ->
          (forall j, i < j -> names !! j <> Some n) ->
          exists reqs,
            _load_requirements path_join readlines requirements_dir (basename p)
              (codes "#") = inr reqs
            /\ d !! n = Some reqs).
Proof.
  intros Hfiles. revert d0.
  induction Hfiles as [|p n paths names Hp _ IH]; intros d0.
  - exists d0. split; [done|]. split; [done|]. intros i p n Hi. done.
  - destruct (optional_file_step p n paths d0 Hp) as (reqs & Hreqs & Hstep).
    destruct (IH (<[n := reqs]> d0)) as (d & Hd & Hother & Hfound).
    exists d. split; [by rewrite Hstep|]. split.
    + intros k Hk. apply not_elem_of_cons in Hk as [Hkn Hk].
      rewrite Hother by done. by rewrite lookup_insert_ne.
    + intros [|i] p' n' Hp' Hn' Hlast; simpl in Hp', Hn'.
      * injection Hp' as <-. injection Hn' as <-.
        exists reqs. split; [done|]. rewrite Hother, lookup_insert_eq; [done|].
        intros Hin. apply list_elem_of_lookup in Hin as [j Hj].
        by apply (Hlast (S j)); [lia|].
      * apply (Hfound i p' n' Hp' Hn'). intros j Hj.
        apply (Hlast (S j)). lia.
Qed.

Lemma find_optional_installs_loop_app (paths names rest : list str)
    (d0 : gmap str (list str)) :
  Forall2 is_optional_file paths names ->
  exists d,
    _find_optional_installs_loop path_join basename readlines requirements_dir
      (paths ++ rest) d0
    = _find_optional_installs_loop path_join basename readlines requirements_dir rest d.
Proof.
  intros Hfiles. revert d0.
  induction Hfiles as [|p n paths names Hp _ IH]; intros d0; [by exists d0|].
  destruct (optional_file_step p n (paths ++ rest) d0 Hp) as (reqs & _ & Hstep).
  destruct (IH (<[n := reqs]> d0)) as (d & Hd).
  exists d. by rewrite <- Hd, <- Hstep.
Qed.

(** X18: When the files that [glob] finds are readable and named
    requirements-[n].rest, the dictionary that [_find_optional_installs]
    returns has no other keys than these names, and maps each name to the
    requirements loaded from its file, from the last one when a name occurs
    more than once. *)
Theorem find_optional_installs_dict (paths names : list str) :
  glob (path_join requirements_dir (codes "requirements-*.txt")) = paths ->
  Forall2 is_optional_file paths names ->
  exists d,
    _find_optional_installs path_join basename glob readlines requirements_dir = inr d
    /\ (forall k, is_Some (d !! k) -> k ∈ names)
    /\ (forall i p n, paths !! i = Some p -> names !! i = Some n ->
          (forall j, i < j -> names !! j <> Some n) ->
          exists reqs,
            _load_requirements path_join readlines requirements_dir (basename p)
              (codes "#") = inr reqs
            /\ d !! n = Some reqs).
Proof.
  intros Hglob Hfiles. unfold _find_optional_installs. rewrite Hglob.
  destruct (find_optional_installs_loop_spec paths names ∅ Hfiles)
    as (d & Hd & Hother & Hfound).
  exists d. split; [done|]. split; [|done].
  intros k Hk. destruct (decide (k ∈ names)) as [|Hn]; [done|].
  rewrite (Hother k Hn), lookup_empty in Hk. by destruct Hk.
Qed.

(** X19: [_find_optional_installs] stops at the first file it cannot handle and
    returns no dictionary: AttributeError when the search finds no name in
    the file name, the exception of [open] when the file cannot be read. *)
Theorem find_optional_installs_error (paths names rest : list str) (p : str) :
  glob (path_join requirements_dir (codes "requirements-*.txt")) = paths ++ p :: rest ->
  Forall2 is_optional_file paths names ->
  (search_dash_group (basename p) = None ->
     _find_optional_installs path_join basename glob readlines requirements_dir
     = inl AttributeError)
  /\ (forall n e, search_dash_group (basename p) = Some n ->
        readlines (path_join requirements_dir (basename p)) = inl e ->
        _find_optional_installs path_join basename glob readlines requirements_dir
        = inl (OpenError e)).
Proof.
  intros Hglob Hfiles. unfold _find_optional_installs. rewrite Hglob.
  destruct (find_optional_installs_loop_app paths names (p :: rest) ∅ Hfiles)
    as (d & ->).
  split.
  - intros Hnone. cbn [_find_optional_installs_loop]. by rewrite Hnone.
  - intros n e Hn He. cbn [_find_optional_installs_loop]. rewrite Hn.
    unfold _load_requirements. by rewrite He.
Qed.
End FindOptionalInstalls.

Ltac solve_not_elem_of := apply (bool_decide_unpack _); vm_compute; exact I.

(** A directory with requirements-dev.txt and requirements-docs.txt. *)
Lemma find_optional_installs_dict_witness :
  let files := [(codes "reqs/requirements-dev.txt", [codes "pytest" ++ [10%N]]);
                (codes "reqs/requirements-docs.txt",
                 [codes "sphinx  # docs" ++ [10%N]])] in
  let paths := [codes "reqs/requirements-dev.txt"; codes "reqs/requirements-docs.txt"] in
  let names := [codes "dev"; codes "docs"] in
  let glob := fun _ : str => paths in
  glob (slash_join (codes "reqs") (codes "requirements-*.txt")) = paths
  /\ Forall2 (optional_file slash_join after_last_slash (read_from files) (codes "reqs"))
       paths names
  /\ exists d,
       _find_optional_installs slash_join after_last_slash glob (read_from files)
         (codes "reqs") = inr d
       /\ (forall k, is_Some (d !! k) -> k ∈ names)
       /\ (forall i p n, paths !! i = Some p -> names !! i = Some n ->
             (forall j, i < j -> names !! j <> Some n) ->
             exists reqs,
               _load_requirements slash_join (read_from files) (codes "reqs")
                 (after_last_slash p) (codes "#") = inr reqs
               /\ d !! n = Some reqs).
Proof.
  intros files paths names glob.
  assert (H1 : glob (slash_join (codes "reqs") (codes "requirements-*.txt")) = paths)
    by reflexivity.
  assert (H2 : Forall2 (optional_file slash_join after_last_slash (read_from files)
                          (codes "reqs")) paths names).
  { constructor; [|constructor; [|constructor]].
    - split; [by exists (codes "txt")|]. split; [solve_not_elem_of|].
      split; [solve_not_elem_of|]. eexists. reflexivity.
    - split; [by exists (codes "txt")|]. split; [solve_not_elem_of|].
      split; [solve_not_elem_of|]. eexists. reflexivity. }
  exact (conj H1 (conj H2
           (find_optional_installs_dict slash_join after_last_slash glob
              (read_from files) (codes "reqs") paths names H1 H2))).
Defined.

(** A directory where requirements-dev.txt is listed but cannot be read. *)
Lemma find_optional_installs_error_witness :
  let files : list (str * list str) := [] in
  let p := codes "reqs/requirements-dev.txt" in
  let glob := fun _ : str => [p] in
  glob (slash_join (codes "reqs") (codes "requirements-*.txt")) = [] ++ p :: []
  /\ Forall2 (optional_file slash_join after_last_slash (read_from files) (codes "reqs"))
       [] []
  /\ search_dash_group (after_last_slash p) = Some (codes "dev")
  /\ read_from files (slash_join (codes "reqs") (after_last_slash p)) = inl tt
  /\ _find_optional_installs slash_join after_last_slash glob (read_from files)
       (codes "reqs") = inl (OpenError tt).
Proof.
  intros files p glob.
  assert (H1 : glob (slash_join (codes "reqs") (codes "requirements-*.txt"))
               = [] ++ p :: []) by reflexivity.
  assert (H2 : Forall2 (optional_file slash_join after_last_slash (read_from files)
                          (codes "reqs")) [] []) by constructor.
  assert (H3 : search_dash_group (after_last_slash p) = Some (codes "dev"))
    by reflexivity.
  assert (H4 : read_from files (slash_join (codes "reqs") (after_last_slash p))
               = inl tt) by reflexivity.
  exact (conj H1 (conj H2 (conj H3 (conj H4
           (proj2 (find_optional_installs_error slash_join after_last_slash glob
                     (read_from files) (codes "reqs") [] [] [] p H1 H2)
              (codes "dev") tt H3 H4))))).
Defined.

(** The file name requirements-dev.txt and its optional name. *)
Lemma search_dash_group_sound_witness :
  search_dash_group (codes "requirements-dev.txt") = Some (codes "dev")
  /\ (46%N ∉ codes "dev") /\ (10%N ∉ codes "dev")
  /\ exists pre post,
       codes "requirements-dev.txt" = pre ++ 45%N :: codes "dev" ++ 46%N :: post.
Proof.
  assert (H : search_dash_group (codes "requirements-dev.txt") = Some (codes "dev"))
    by reflexivity.
  exact (conj H (proj1 (search_dash_group_sound (codes "requirements-dev.txt"))
                   (codes "dev") H)).
Defined.
